(** * Network diagnostics utilities ([src/common/network.py])

    A shallow embedding of the module's functions and the properties its
    specification states about them.

    The module is a set of helpers around external facilities: the [ping]
    executable, UDP and TCP sockets, HTTP requests and the host's hardware
    identifier.  Every helper is embedded as a computation in a small
    state-and-exception monad.  The state is the log of the external calls
    made so far; what an external call answers is given by an environment
    that may look at the whole log, so two identical calls made at different
    moments may answer differently, as a network does.

    Modelling conventions:
    - a Python [str] is a [string] whose characters are code points below 256;
    - a Python [int] is a [Z]; a Python [float] is a binary64 [float];
    - [str(n)] and an [int] in an f-string give the decimal numeral of [n],
      and raise [ValueError] when it has more than 4300 digits, the
      interpreter's default limit;
    - the exceptions are those deriving from [Exception], the ones the
      [except Exception] clauses of the module catch; the imports of the
      standard modules inside the functions succeed;
    - the pure library functions the module calls without owning them
      ([json.loads], [bytes.decode]) are parameters of the development. *)

From Stdlib Require Import ZArith String Ascii List Bool Lia.
From Stdlib Require Import DecimalString DecimalZ HexadecimalString Floats.
From Stdlib Require Import Sorted.
From stdpp Require Import gmap strings list.

Set Warnings "-register-all".

Open Scope string_scope.
Open Scope Z_scope.

(** ** The Python runtime the module relies on *)

Module Py.

(** Exceptions: [subprocess.TimeoutExpired] is the only class the module
    tells apart; every other one is kept with the text [str(e)] gives. *)
Inductive exn : Type :=
| TimeoutExpired
| Exception (msg : string).

Inductive result (A : Type) : Type :=
| Ok (a : A)
| Raise (e : exn).
Arguments Ok {A} a.
Arguments Raise {A} e.

(** Numbers as the timeouts have them: [int] or [float]. *)
Inductive pynum : Type :=
| NInt (z : Z)
| NFloat (f : float).

(** Objects as [json.loads] builds them; a [dict] keeps its items in
    document order, a repeated name bound to its last value. *)
Inductive pyobj : Type :=
| PyNone
| PyBool (b : bool)
| PyInt (z : Z)
| PyFloat (f : float)
| PyStr (s : string)
| PyList (l : list pyobj)
| PyDict (kv : list (string * pyobj)).

(** A step of a computation that may raise. *)
Definition rbind {A B : Type} (r : result A) (k : A -> result B) : result B :=
  match r with
  | Ok a => k a
  | Raise e => Raise e
  end.

(** The decimal numeral of an [int]. *)
Definition numeral (n : Z) : string :=
  DecimalString.NilZero.string_of_int (Z.to_int n).

(** The number of digits of the numeral, the sign apart. *)
Definition str_digits (n : Z) : Z :=
  Z.of_nat (String.length (numeral (Z.abs n))).

Definition str_digits_error : exn :=
  Exception "Exceeds the limit (4300 digits) for integer string conversion; use sys.set_int_max_str_digits() to increase the limit".

(** [str(n)] for an [int], also [f"{n}"]: the numeral, unless it has more
    than 4300 digits. *)
Definition str_int (n : Z) : result string :=
  if 4300 <? str_digits n then Raise str_digits_error
  else Ok (numeral n).

(** [float(n)] for an [int]: round to nearest even, [OverflowError] past the
    binary64 range. *)
Definition float_of_int (n : Z) : result float :=
  let f := SF2Prim (binary_normalize 53 1024 n 0 false) in
  if PrimFloat.is_infinity f
  then Raise (Exception "int too large to convert to float")
  else Ok f.

(** [int(x)]: truncation toward zero; a NaN or an infinity raises. *)
Definition int_of_float (f : float) : result Z :=
  match Prim2SF f with
  | S754_zero _ => Ok 0
  | S754_nan => Raise (Exception "cannot convert float NaN to integer")
  | S754_infinity _ => Raise (Exception "cannot convert float infinity to integer")
  | S754_finite s m e =>
      let a := if 0 <=? e then Z.pos m * 2 ^ e else Z.pos m / 2 ^ (- e) in
      Ok (if s then - a else a)
  end.

Definition int_of (x : pynum) : result Z :=
  match x with
  | NInt z => Ok z
  | NFloat f => int_of_float f
  end.

(** [a * b] and [a + b]: exact on two [int]s, binary64 otherwise. *)
Definition arith (iop : Z -> Z -> Z) (fop : float -> float -> float)
    (a b : pynum) : result pynum :=
  match a, b with
  | NInt x, NInt y => Ok (NInt (iop x y))
  | NInt x, NFloat g =>
      match float_of_int x with
      | Ok f => Ok (NFloat (fop f g))
      | Raise e => Raise e
      end
  | NFloat f, NInt y =>
      match float_of_int y with
      | Ok g => Ok (NFloat (fop f g))
      | Raise e => Raise e
      end
  | NFloat f, NFloat g => Ok (NFloat (fop f g))
  end.

Definition mul : pynum -> pynum -> result pynum := arith Z.mul PrimFloat.mul.
Definition add : pynum -> pynum -> result pynum := arith Z.add PrimFloat.add.

(** [n < f] for an [int] and a [float], compared exactly as Python does. *)
Definition int_lt_float (n : Z) (f : float) : bool :=
  match Prim2SF f with
  | S754_zero _ => n <? 0
  | S754_nan => false
  | S754_infinity s => negb s
  | S754_finite s m e =>
      let v := if s then Z.neg m else Z.pos m in
      if 0 <=? e then n <? v * 2 ^ e else n * 2 ^ (- e) <? v
  end.

Definition float_lt_int (f : float) (n : Z) : bool :=
  match Prim2SF f with
  | S754_zero _ => 0 <? n
  | S754_nan => false
  | S754_infinity s => s
  | S754_finite s m e =>
      let v := if s then Z.neg m else Z.pos m in
      if 0 <=? e then v * 2 ^ e <? n else v <? n * 2 ^ (- e)
  end.

Definition lt (a b : pynum) : bool :=
  match a, b with
  | NInt x, NInt y => x <? y
  | NInt x, NFloat g => int_lt_float x g
  | NFloat f, NInt y => float_lt_int f y
  | NFloat f, NFloat g => PrimFloat.ltb f g
  end.

(** [max(a, b)]: the first argument unless the second is greater. *)
Definition max (a b : pynum) : pynum := if lt a b then b else a.

(** Truth value of an object ([if ip:]). *)
Definition truthy (o : pyobj) : bool :=
  match o with
  | PyNone => false
  | PyBool b => b
  | PyInt z => negb (z =? 0)
  | PyFloat f => negb (PrimFloat.eqb f 0%float)
  | PyStr s => negb (String.eqb s "")
  | PyList l => match l with [] => false | _ => true end
  | PyDict kv => match kv with [] => false | _ => true end
  end.

(** [d.get(k)] on the items of a [dict]: the last binding of [k], else
    [None]. *)
Fixpoint dict_find (kv : list (string * pyobj)) (k : string) : option pyobj :=
  match kv with
  | [] => None
  | (k', v) :: rest =>
      match dict_find rest k with
      | Some o => Some o
      | None => if String.eqb k' k then Some v else None
      end
  end.

Definition dict_get (kv : list (string * pyobj)) (k : string) : pyobj :=
  match dict_find kv k with
  | Some o => o
  | None => PyNone
  end.

(** [obj.get(k)]: only a [dict] has the method. *)
Definition obj_get (o : pyobj) (k : string) : result pyobj :=
  match o with
  | PyDict kv => Ok (dict_get kv k)
  | _ => Raise (Exception "object has no attribute 'get'")
  end.

(** [str.isspace] on one character. *)
Definition isspace (c : ascii) : bool :=
  let n := Z.of_N (N_of_ascii c) in
  ((9 <=? n) && (n <=? 13)) || ((28 <=? n) && (n <=? 32))
  || (n =? 133) || (n =? 160).

Fixpoint lstrip (s : string) : string :=
  match s with
  | String c s' => if isspace c then lstrip s' else s
  | EmptyString => EmptyString
  end.

Fixpoint rstrip (s : string) : string :=
  match s with
  | String c s' =>
      match rstrip s' with
      | EmptyString => if isspace c then EmptyString else String c EmptyString
      | r => String c r
      end
  | EmptyString => EmptyString
  end.

(** [s.strip()]. *)
Definition strip (s : string) : string := rstrip (lstrip s).

(** [s.endswith(suffix)]. *)
Definition endswith (s suffix : string) : bool :=
  let n := String.length s in
  let k := String.length suffix in
  (k <=? n)%nat && String.eqb (substring (n - k) k s) suffix.

(** [sep.join(parts)]. *)
Fixpoint join (sep : string) (parts : list string) : string :=
  match parts with
  | [] => ""
  | [p] => p
  | p :: rest => p ++ sep ++ join sep rest
  end.

(** [format(n, "02x")]: lowercase hexadecimal, the sign first, zeros up to
    a width of two. *)
Definition format_02x (n : Z) : string :=
  let digits := HexadecimalString.NilZero.string_of_uint (N.to_hex_uint (Z.abs_N n)) in
  if n <? 0 then
    "-" ++ digits
  else
    match digits with
    | String d EmptyString => String "0" (String d EmptyString)
    | _ => digits
    end.

(** [range(start, stop, step)] over [int]s, for a step that is not zero. *)
Definition range_step (start stop step : Z) : list Z :=
  let n :=
    if 0 <? step then (stop - start + step - 1) / step
    else if step <? 0 then (start - stop - step - 1) / (- step)
    else 0 in
  map (fun i => start + Z.of_nat i * step) (seq 0 (Z.to_nat n)).

(** [range(a, b)]. *)
Definition range (a b : Z) : list Z := range_step a b 1.

(** [c.lower()] on one character: the ASCII and the Latin-1 capitals. *)
Definition lower_char (c : ascii) : ascii :=
  let n := Z.of_N (N_of_ascii c) in
  if ((65 <=? n) && (n <=? 90))
     || ((192 <=? n) && (n <=? 222) && negb (n =? 215))
  then ascii_of_N (Z.to_N (n + 32))
  else c.

(** [s.lower()]. *)
Fixpoint lower (s : string) : string :=
  match s with
  | String c s' => String (lower_char c) (lower s')
  | EmptyString => EmptyString
  end.

(** [x or ""] and [x if x else ""] on a text that may be [None]. *)
Definition or_empty (x : option string) : string :=
  match x with
  | Some s => s
  | None => ""
  end.

Definition nonempty (x : option string) : bool :=
  match x with
  | Some s => negb (String.eqb s "")
  | None => false
  end.

End Py.

Import Py.

(** ** External calls, their log and the environment *)

(** What [subprocess.run] hands back. *)
Record completed : Type := Completed {
  returncode : Z;
  stdout : option string;
  stderr : option string
}.

(** One entry of the log per call that leaves the program. *)
Inductive event : Type :=
| EWhich (cmd : string)
| EPlatformSystem
| ERun (args : list string) (timeout : pynum)
| EUdpSocket
| ESetTimeout (timeout : pynum)
| EUdpConnect (addr : string) (port : Z)
| EGetSockName
| EUdpClose
| EUrlOpen (url : string) (timeout : pynum)
| ERespRead
| ERespClose
| EGetNode
| ETcpConnect (host : string) (port : Z) (timeout : pynum)
| ETcpClose
| EPrint (line : string).

(** The log, the most recent call first. *)
Definition trace : Type := list event.

(** The answers of the outside world; each one may depend on everything
    that was called before. *)
Record env : Type := Env {
  shutil_which : trace -> string -> result (option string);
  platform_system : trace -> result string;
  subprocess_run : trace -> list string -> pynum -> result completed;
  udp_socket : trace -> result unit;
  udp_settimeout : trace -> pynum -> result unit;
  udp_connect : trace -> string -> Z -> result unit;
  udp_getsockname : trace -> result (string * Z);
  udp_close : trace -> result unit;
  urlopen : trace -> string -> pynum -> result unit;
  resp_read : trace -> result string;
  resp_close : trace -> result unit;
  uuid_getnode : trace -> result Z;
  create_connection : trace -> string -> Z -> pynum -> result unit;
  tcp_close : trace -> result unit;
  print : trace -> string -> result unit
}.

(** ** The monad of the embedding *)

Definition M (A : Type) : Type := trace -> result A * trace.

Definition ret {A : Type} (a : A) : M A := fun t => (Ok a, t).

Definition bind {A B : Type} (m : M A) (k : A -> M B) : M B :=
  fun t =>
    match m t with
    | (Ok a, t') => k a t'
    | (Raise e, t') => (Raise e, t')
    end.

(** A pure step that may raise. *)
Definition lift {A : Type} (r : result A) : M A := fun t => (r, t).

(** An external call: answered from the log so far, then logged. *)
Definition call {A : Type} (ev : event) (answer : trace -> result A) : M A :=
  fun t => (answer t, ev :: t).

(** [try: m  except Exception as e: h e]. *)
Definition try_except {A : Type} (m : M A) (h : exn -> M A) : M A :=
  fun t =>
    match m t with
    | (Ok a, t') => (Ok a, t')
    | (Raise e, t') => h e t'
    end.

(** [try: m  finally: fin]; an exception of [fin] replaces the outcome. *)
Definition try_finally {A : Type} (m : M A) (fin : M unit) : M A :=
  fun t =>
    match m t with
    | (r, t') =>
        match fin t' with
        | (Ok _, t'') => (r, t'')
        | (Raise e, t'') => (Raise e, t'')
        end
    end.

(** [with enter as _: body], for a context manager whose exit closes it. *)
Definition with_ {A : Type} (enter : M unit) (exit : M unit) (body : M A) : M A :=
  bind enter (fun _ => try_finally body exit).

Declare Scope py_scope.
Delimit Scope py_scope with py.
Notation "x <- m ;; k" := (bind m (fun x => k))
  (at level 100, m at next level, right associativity) : py_scope.
Notation "m ;;; k" := (bind m (fun _ => k))
  (at level 100, right associativity) : py_scope.
Notation "x <~ r ;; k" := (rbind r (fun x => k))
  (at level 100, r at next level, right associativity) : py_scope.
Open Scope py_scope.

(** How one turn of a [for] loop ends: on to the next item, or out of the
    function with a value. *)
Inductive flow (S R : Type) : Type :=
| Next (s : S)
| Return (r : R).
Arguments Next {S R} s.
Arguments Return {S R} r.

(** [for x in xs: body] with the loop's variables in [s]; a [return] in the
    body ends the loop. *)
Fixpoint for_in {A S R : Type} (xs : list A) (s : S)
    (body : A -> S -> M (flow S R)) : M (flow S R) :=
  match xs with
  | [] => ret (Next s)
  | x :: rest =>
      f <- body x s ;;
      match f with
      | Next s' => for_in rest s' body
      | Return r => ret (Return r)
      end
  end.

(** [for x in xs: body] for a body that never leaves the loop. *)
Fixpoint for_each {A S : Type} (xs : list A) (s : S)
    (body : A -> S -> M S) : M S :=
  match xs with
  | [] => ret s
  | x :: rest => s' <- body x s ;; for_each rest s' body
  end.

Definition default_arg {A : Type} (d : A) (o : option A) : A :=
  match o with
  | Some a => a
  | None => d
  end.

(** ** The functions of [network.py] *)

(** What [is_port_open] returns: a [bool], or the pair [(bool, str)] when
    [returntuple] is set. *)
Inductive port_answer : Type :=
| ABool (b : bool)
| ATuple (r : bool * string).

(** [not x] on such a value: a pair is never empty, hence true. *)
Definition answer_truthy (a : port_answer) : bool :=
  match a with
  | ABool b => b
  | ATuple _ => true
  end.

Definition dns_servers : list string := ["1.1.1.1"; "8.8.8.8"; "9.9.9.9"].

Definition endpoints : list string :=
  ["https://api.ipify.org?format=json";
   "https://ifconfig.me/ip";
   "https://ipinfo.io/ip"].

Definition newline : string := String (ascii_of_nat 10) EmptyString.
Definition esc : string := String (ascii_of_nat 27) EmptyString.
Definition RED : string := esc ++ "[91m".
Definition GREEN : string := esc ++ "[92m".
Definition RESET : string := esc ++ "[0m".

Section Network.

(** The outside world. *)
Variable E : env.
(** [json.loads] and [bytes.decode], the library's. *)
Variable json_loads : string -> result pyobj.
Variable bytes_decode : string -> result string.

(** The command line and the time limit of the process: what the [try]
    block of [ping_host] computes between [platform.system()] and
    [subprocess.run], calling nothing. *)
Definition ping_plan (system host : string) (count : Z) (timeout : pynum)
    : result (list string * pynum) :=
  args <~
    (if String.eqb system "windows" then
       c <~ str_int count ;;
       ms <~ mul timeout (NInt 1000) ;;
       w <~ int_of ms ;;
       ws <~ str_int w ;;
       Ok ["ping"; "-n"; c; "-w"; ws; host]
     else
       c <~ str_int count ;;
       w <~ int_of timeout ;;
       ws <~ str_int w ;;
       Ok ["ping"; "-c"; c; "-W"; ws; host]) ;;
  total <~ mul (NInt count) timeout ;;
  total5 <~ add total (NInt 5) ;;
  Ok (args, Py.max (NInt 10) total5).

(** The [try] block of [ping_host], for arguments already defaulted. *)
Definition ping_host_try (host : string) (count : Z)
    (timeout : pynum) : M (bool * string) :=
  found <- call (EWhich "ping") (fun t => shutil_which E t "ping") ;;
  match found with
  | None => ret (false, "ping utility not found")
  | Some _ =>
      name <- call EPlatformSystem (platform_system E) ;;
      let system := lower name in
      plan <- lift (ping_plan system host count timeout) ;;
      let '(args, limit) := plan in
      done <- call (ERun args limit) (fun t => subprocess_run E t args limit) ;;
      let output :=
        or_empty (stdout done)
        ++ (if nonempty (stderr done)
            then newline ++ or_empty (stderr done)
            else "") in
      ret (returncode done =? 0, strip output)
  end.

Definition ping_host (host : string) (count : option Z)
    (timeout : option pynum) : M (bool * string) :=
  let count := default_arg 4 count in
  let timeout := default_arg (NInt 2) timeout in
  try_except
    (ping_host_try host count timeout)
    (fun e =>
       match e with
       | TimeoutExpired => ret (false, "ping command timed out")
       | Exception msg => ret (false, msg)
       end).

Definition ping (host : string) (timeout : option pynum)
    (count : option Z) : M bool :=
  let timeout := default_arg (NInt 2) timeout in
  let count := default_arg 1 count in
  try_except
    (r <- ping_host host (Some count) (Some timeout) ;;
     let '(reachable, _) := r in
     ret reachable)
    (fun _ => ret false).

(** [is_online] returns [True], or nothing ([None]) when the loop ends. *)
Definition is_online (timeout : option pynum) : M pyobj :=
  let timeout := default_arg (NInt 5) timeout in
  f <- for_in dns_servers tt
         (fun server _ =>
            up <- ping server (Some timeout) None ;;
            if up then ret (Return (PyBool true)) else ret (Next tt)) ;;
  match f with
  | Return r => ret r
  | Next _ => ret PyNone
  end.

Definition get_local_ip : M string :=
  try_except
    (call EUdpSocket (udp_socket E) ;;;
     call (ESetTimeout (NFloat 0.5)) (fun t => udp_settimeout E t (NFloat 0.5)) ;;;
     ip <- try_finally
             (call (EUdpConnect "8.8.8.8" 80) (fun t => udp_connect E t "8.8.8.8" 80) ;;;
              name <- call EGetSockName (udp_getsockname E) ;;
              ret (fst name))
             (call EUdpClose (udp_close E)) ;;
     ret ip)
    (fun _ => ret "0.0.0.0").

(** One turn of the loop of [get_public_ip] over the endpoints. *)
Definition get_public_ip_turn (timeout : pynum) (url : string)
    : M (flow unit pyobj) :=
  try_except
    (with_ (call (EUrlOpen url timeout) (fun t => urlopen E t url timeout))
           (call ERespClose (resp_close E))
       (raw <- call ERespRead (resp_read E) ;;
        text <- lift (bytes_decode raw) ;;
        let data := strip text in
        ip <-
          (if endswith url "format=json" then
             try_except
               (obj <- lift (json_loads data) ;;
                lift (obj_get obj "ip"))
               (fun _ => ret (PyStr data))
           else ret (PyStr data)) ;;
        if truthy ip then ret (Return ip) else ret (Next tt)))
    (fun _ => ret (Next tt)).

(** The annotation says [str]; the value is whatever the endpoint's answer
    yields, so the result is an object. *)
Definition get_public_ip (timeout : option pynum) : M pyobj :=
  let timeout := default_arg (NInt 5) timeout in
  try_except
    (f <- for_in endpoints tt (fun url _ => get_public_ip_turn timeout url) ;;
     match f with
     | Return ip => ret ip
     | Next _ => ret (PyStr "0.0.0.0")
     end)
    (fun _ => ret (PyStr "0.0.0.0")).

Definition get_mac_address : M string :=
  try_except
    (mac <- call EGetNode (uuid_getnode E) ;;
     let mac_str :=
       join ":" (map (fun ele => format_02x (Z.land (Z.shiftr mac ele) 255))
                     (range_step 40 (-1) (-8))) in
     ret mac_str)
    (fun _ => ret "00:00:00:00:00:00").

(** [port] is an [int], so [int(port)] is [port]; the three texts format
    it, the two handlers too. *)
Definition _tuple_is_port_open (host : string) (port : Z)
    (timeout : option pynum) : M (bool * string) :=
  let timeout := default_arg (NFloat 1) timeout in
  up <- ping host (Some timeout) None ;;
  if negb up then ret (false, "Host unreachable")
  else
    try_except
      (try_except
         (call (ETcpConnect host port timeout)
               (fun t => create_connection E t host port timeout) ;;;
          call ETcpClose (tcp_close E) ;;;
          p <- lift (str_int port) ;;
          ret (true, p ++ " is open"))
         (fun _ =>
            p <- lift (str_int port) ;;
            ret (false, p ++ " is closed")))
      (fun _ =>
         p <- lift (str_int port) ;;
         ret (false, p ++ " is closed")).

Definition is_port_open (host : string) (port : Z) (timeout : option pynum)
    (returntuple : option bool) : M port_answer :=
  let timeout := default_arg (NFloat 1) timeout in
  let returntuple := default_arg false returntuple in
  if returntuple then
    r <- _tuple_is_port_open host port (Some timeout) ;;
    ret (ATuple r)
  else
    r <- _tuple_is_port_open host port (Some timeout) ;;
    ret (ABool (fst r)).

(** The [dict] is a finite map: the order in which the keys were first
    stored is not kept. *)
Definition ping_list (hosts : list string) (timeout : option pynum)
    (count : option Z) : M (gmap string bool) :=
  let timeout := default_arg (NInt 2) timeout in
  let count := default_arg 1 count in
  for_each hosts (empty : gmap string bool)
    (fun host results =>
       up <- ping host (Some timeout) (Some count) ;;
       ret (<[host := up]> results)).

Definition free_port_scanner (host : string) (start_port end_port : Z)
    (timeout : option pynum) (show_progress : option bool) : M (list Z) :=
  let timeout := default_arg (NFloat 1) timeout in
  let show_progress := default_arg false show_progress in
  for_each (range start_port (end_port + 1)) []
    (fun port open_ports =>
       a <- is_port_open host port (Some timeout) None ;;
       let resalt := negb (answer_truthy a) in
       let open_ports := if resalt then (open_ports ++ [port])%list else open_ports in
       (if show_progress then
          p <- lift (str_int port) ;;
          let line :=
            if resalt
            then "Checked port " ++ p ++ " " ++ GREEN ++ " Free" ++ RESET
            else "Checked port " ++ p ++ " " ++ RED ++ " Used" ++ RESET in
          call (EPrint line) (fun t => print E t line)
        else ret tt) ;;;
       ret open_ports).

Definition scan_ports_list (host : string) (ports : list Z)
    (timeout : option pynum) : M (gmap Z port_answer) :=
  let timeout := default_arg (NFloat 1) timeout in
  for_each ports (empty : gmap Z port_answer)
    (fun port results =>
       a <- is_port_open host port (Some timeout) None ;;
       ret (<[port := a]> results)).

End Network.

(** ** The vocabulary of the statements *)

Definition is_tcp_connect (ev : event) : bool :=
  match ev with
  | ETcpConnect _ _ _ => true
  | _ => false
  end.

(** The command lines [ping_host] builds: the Windows form and the other. *)
Definition ping_command (host : string) (count : Z) (args : list string) : Prop :=
  exists c w ws,
    str_int count = Ok c /\ str_int w = Ok ws /\
    (args = ["ping"; "-n"; c; "-w"; ws; host] \/
     args = ["ping"; "-c"; c; "-W"; ws; host]).

(** An [int] that [str] accepts: at most 4300 digits. *)
Definition within_str_limit (n : Z) : Prop := str_digits n <= 4300.

(** The [int] written as a one followed by [k] zeros, [10 ** k]. *)
Definition one_and_zeros (k : nat) : Z :=
  Z.of_int (Decimal.Pos (Decimal.D1 (Nat.iter k Decimal.D0 Decimal.Nil))).

(** [first_up E timeout servers t r t']: pinging [servers] in order from
    the state [t] stops at the first one that answers, with [r = True], or
    reaches the end of the list, with [r = None]; [t'] is the state then. *)
Inductive first_up (E : env) (timeout : pynum) :
    list string -> trace -> pyobj -> trace -> Prop :=
| first_up_none t :
    first_up E timeout [] t PyNone t
| first_up_hit server rest t t1 :
    ping E server (Some timeout) None t = (Ok true, t1) ->
    first_up E timeout (server :: rest) t (PyBool true) t1
| first_up_miss server rest t t1 r t2 :
    ping E server (Some timeout) None t = (Ok false, t1) ->
    first_up E timeout rest t1 r t2 ->
    first_up E timeout (server :: rest) t r t2.

(** [runs f xs t bs t']: calling [f] on the items of [xs] one after the
    other from the state [t], each call starting where the previous one
    ended, raises nothing, answers [bs] item by item and ends in [t']. *)
Inductive runs {A B : Type} (f : A -> M B) :
    list A -> trace -> list B -> trace -> Prop :=
| runs_nil t :
    runs f [] t [] t
| runs_cons x xs t b t1 bs t2 :
    f x t = (Ok b, t1) ->
    runs f xs t1 bs t2 ->
    runs f (x :: xs) t (b :: bs) t2.

(** The digit of [d] in lowercase hexadecimal, for [0 <= d < 16]. *)
Definition hex_digit (d : Z) : ascii :=
  match String.get (Z.to_nat d) "0123456789abcdef" with
  | Some c => c
  | None => "0"%char
  end.

(** The two hexadecimal digits of a byte. *)
Definition hex2 (b : Z) : string :=
  String (hex_digit (b / 16)) (String (hex_digit (b mod 16)) EmptyString).

(** Byte [k] of an identifier, byte 0 being the least significant. *)
Definition octet (mac : Z) (k : Z) : Z := (mac / 256 ^ k) mod 256.

Definition is_lower_hex (c : ascii) : bool :=
  let n := Z.of_N (N_of_ascii c) in
  ((48 <=? n) && (n <=? 57)) || ((97 <=? n) && (n <=? 102)).

Definition is_colon (c : ascii) : bool := Ascii.eqb c ":"%char.

(** Six groups of two lowercase hexadecimal digits with a colon between
    two groups, and nothing else. *)
Definition is_mac (s : string) : bool :=
  match list_ascii_of_string s with
  | [a1; a2; s1; b1; b2; s2; c1; c2; s3; d1; d2; s4; e1; e2; s5; f1; f2] =>
      forallb is_lower_hex [a1; a2; b1; b2; c1; c2; d1; d2; e1; e2; f1; f2]
      && forallb is_colon [s1; s2; s3; s4; s5]
  | _ => false
  end.

(** [s.split(sep)] for a separator of one character. *)
Fixpoint split_on (sep : ascii) (s : string) : list string :=
  match s with
  | EmptyString => [EmptyString]
  | String c s' =>
      if Ascii.eqb c sep then EmptyString :: split_on sep s'
      else
        match split_on sep s' with
        | g :: gs => String c g :: gs
        | [] => [String c EmptyString]
        end
  end.

Definition is_digit (c : ascii) : bool :=
  let n := Z.of_N (N_of_ascii c) in (48 <=? n) && (n <=? 57).

(** The value of a text of decimal digits. *)
Definition decimal_value (g : string) : Z :=
  fold_left (fun v c => 10 * v + (Z.of_N (N_of_ascii c) - 48))
            (list_ascii_of_string g) 0.

(** One to three decimal digits that write a number up to 255. *)
Definition is_octet (g : string) : bool :=
  (1 <=? String.length g)%nat && (String.length g <=? 3)%nat
  && forallb is_digit (list_ascii_of_string g)
  && (decimal_value g <=? 255).

(** A dotted quad: four such numbers with a dot between two of them. *)
Definition is_ipv4 (s : string) : bool :=
  match split_on "."%char s with
  | [a; b; c; d] => is_octet a && is_octet b && is_octet c && is_octet d
  | _ => false
  end.

(** What [get_public_ip] makes of the text [data] an endpoint sent: the
    [ip] field when the endpoint is the JSON one and the text is a JSON
    object, the text itself otherwise. *)
Definition answer_of (json_loads : string -> result pyobj)
    (url data : string) : pyobj :=
  if endswith url "format=json" then
    match json_loads data with
    | Ok obj =>
        match obj_get obj "ip" with
        | Ok ip => ip
        | Raise _ => PyStr data
        end
    | Raise _ => PyStr data
    end
  else PyStr data.

(** [results[k] = v] as a step of a fold. *)
Definition store {K V : Type} `{Countable K} (m : gmap K V) (kv : K * V)
    : gmap K V :=
  <[fst kv := snd kv]> m.

(** The update of [open_ports] in one turn of [free_port_scanner]. *)
Definition keep_free (open_ports : list Z) (pa : Z * port_answer) : list Z :=
  if negb (answer_truthy (snd pa)) then (open_ports ++ [fst pa])%list
  else open_ports.

(** What one endpoint yields from the state [t], and the state it leaves:
    the endpoint is opened; when that succeeds its answer is read and it is
    closed; the value is what [answer_of] makes of the decoded, stripped
    text, when reading, decoding and closing succeed and the value is a
    true one. *)
Definition endpoint_answer (E : env) (json_loads : string -> result pyobj)
    (bytes_decode : string -> result string) (timeout : pynum)
    (url : string) (t : trace) : option pyobj * trace :=
  let t1 := EUrlOpen url timeout :: t in
  let t3 := ERespClose :: ERespRead :: t1 in
  match urlopen E t url timeout with
  | Raise _ => (None, t1)
  | Ok _ =>
      match resp_read E t1 with
      | Raise _ => (None, t3)
      | Ok raw =>
          match bytes_decode raw with
          | Raise _ => (None, t3)
          | Ok text =>
              let ip := answer_of json_loads url (strip text) in
              if truthy ip then
                match resp_close E (ERespRead :: t1) with
                | Ok _ => (Some ip, t3)
                | Raise _ => (None, t3)
                end
              else (None, t3)
          end
      end
  end.

(** [first_answer E json_loads bytes_decode timeout urls t k ip t']: asking
    the endpoints [urls] in order from the state [t], [k] of them are
    asked; the first [k - 1] yield nothing and the next one yields [ip], or
    all of [urls] are asked in vain and [ip] is ["0.0.0.0"]; [t'] is the
    state then. *)
Inductive first_answer (E : env) (json_loads : string -> result pyobj)
    (bytes_decode : string -> result string) (timeout : pynum) :
    list string -> trace -> nat -> pyobj -> trace -> Prop :=
| first_answer_none t :
    first_answer E json_loads bytes_decode timeout [] t 0 (PyStr "0.0.0.0") t
| first_answer_hit url rest t ip t1 :
    endpoint_answer E json_loads bytes_decode timeout url t = (Some ip, t1) ->
    first_answer E json_loads bytes_decode timeout (url :: rest) t 1 ip t1
| first_answer_miss url rest t t1 k ip t2 :
    endpoint_answer E json_loads bytes_decode timeout url t = (None, t1) ->
    first_answer E json_loads bytes_decode timeout rest t1 k ip t2 ->
    first_answer E json_loads bytes_decode timeout (url :: rest) t
      (Datatypes.S k) ip t2.

(** *** Sample environments *)

(** A [json.loads] that accepts nothing and a [bytes.decode] for ASCII
    bodies, where decoding changes nothing. *)
Definition json_nothing (s : string) : result pyobj :=
  Raise (Exception "Expecting value").

Definition decode_ascii (raw : string) : result string :=
  if forallb (fun c => Z.of_N (N_of_ascii c) <? 128) (list_ascii_of_string raw)
  then Ok raw
  else Raise (Exception "invalid start byte").

(** A host without network and without a [ping] executable. *)
Definition env_offline : env := {|
  shutil_which := fun _ _ => Ok None;
  platform_system := fun _ => Ok "Linux";
  subprocess_run := fun _ _ _ => Raise (Exception "No such file or directory");
  udp_socket := fun _ => Ok tt;
  udp_settimeout := fun _ _ => Ok tt;
  udp_connect := fun _ _ _ => Raise (Exception "Network is unreachable");
  udp_getsockname := fun _ => Ok ("0.0.0.0", 0);
  udp_close := fun _ => Ok tt;
  urlopen := fun _ _ _ => Raise (Exception "Name or service not known");
  resp_read := fun _ => Raise (Exception "closed");
  resp_close := fun _ => Ok tt;
  uuid_getnode := fun _ => Ok 1250999896491;
  create_connection := fun _ _ _ _ => Raise (Exception "Network is unreachable");
  tcp_close := fun _ => Ok tt;
  print := fun _ _ => Ok tt
|}.

(** A host on an IPv6 network: the JSON endpoint cannot be reached and the
    next one answers with the IPv6 address it saw, followed by a newline. *)
Definition env_ipv6 : env := {|
  shutil_which := fun _ _ => Ok (Some "/usr/bin/ping");
  platform_system := fun _ => Ok "Linux";
  subprocess_run := fun _ _ _ => Ok (Completed 0 (Some "1 received") (Some ""));
  udp_socket := fun _ => Ok tt;
  udp_settimeout := fun _ _ => Ok tt;
  udp_connect := fun _ _ _ => Ok tt;
  udp_getsockname := fun _ => Ok ("192.168.1.7", 40000);
  udp_close := fun _ => Ok tt;
  urlopen := fun _ url _ =>
    if String.eqb url "https://api.ipify.org?format=json"
    then Raise (Exception "<urlopen error timed out>")
    else Ok tt;
  resp_read := fun _ => Ok ("2001:db8::1" ++ newline);
  resp_close := fun _ => Ok tt;
  uuid_getnode := fun _ => Ok 1250999896491;
  create_connection := fun _ _ port _ =>
    if port =? 80 then Ok tt else Raise (Exception "Connection refused");
  tcp_close := fun _ => Ok tt;
  print := fun _ _ => Ok tt
|}.

(** A host that drops ICMP but serves TCP: the [ping] process exits with
    code 1 and every connection succeeds. *)
Definition env_filtered : env := {|
  shutil_which := fun _ _ => Ok (Some "/usr/bin/ping");
  platform_system := fun _ => Ok "Linux";
  subprocess_run := fun _ _ _ =>
    Ok (Completed 1 (Some "0 received, 100% packet loss") (Some ""));
  udp_socket := fun _ => Ok tt;
  udp_settimeout := fun _ _ => Ok tt;
  udp_connect := fun _ _ _ => Ok tt;
  udp_getsockname := fun _ => Ok ("10.0.0.5", 51000);
  udp_close := fun _ => Ok tt;
  urlopen := fun _ _ _ => Ok tt;
  resp_read := fun _ => Ok "203.0.113.9";
  resp_close := fun _ => Ok tt;
  uuid_getnode := fun _ => Ok 1250999896491;
  create_connection := fun _ _ _ _ => Ok tt;
  tcp_close := fun _ => Ok tt;
  print := fun _ _ => Ok tt
|}.

(** The same world with another answer to [subprocess.run]. *)
Definition set_run (E : env)
    (run : trace -> list string -> pynum -> result completed) : env := {|
  shutil_which := shutil_which E;
  platform_system := platform_system E;
  subprocess_run := run;
  udp_socket := udp_socket E;
  udp_settimeout := udp_settimeout E;
  udp_connect := udp_connect E;
  udp_getsockname := udp_getsockname E;
  udp_close := udp_close E;
  urlopen := urlopen E;
  resp_read := resp_read E;
  resp_close := resp_close E;
  uuid_getnode := uuid_getnode E;
  create_connection := create_connection E;
  tcp_close := tcp_close E;
  print := print E
|}.

(** ** The vocabulary of the further properties *)

Definition starts_with_space (s : string) : bool :=
  match s with
  | String c _ => isspace c
  | EmptyString => false
  end.

Fixpoint ends_with_space (s : string) : bool :=
  match s with
  | EmptyString => false
  | String c EmptyString => isspace c
  | String _ s' => ends_with_space s'
  end.

(** The text [ping_host] strips: the standard output, then a newline and
    the standard error when there is some. *)
Definition ping_output (done : completed) : string :=
  or_empty (stdout done)
  ++ (if nonempty (stderr done) then newline ++ or_empty (stderr done) else "").

(** The value of a lowercase hexadecimal digit, and of two of them. *)
Definition hex_value (c : ascii) : Z :=
  let n := Z.of_N (N_of_ascii c) in
  if n <=? 57 then n - 48 else n - 87.

Definition byte_of_hex2 (s : string) : Z :=
  match s with
  | String h (String l EmptyString) => 16 * hex_value h + hex_value l
  | _ => 0
  end.

(** The same world with another hardware identifier. *)
Definition set_node (E : env) (node : Z) : env := {|
  shutil_which := shutil_which E;
  platform_system := platform_system E;
  subprocess_run := subprocess_run E;
  udp_socket := udp_socket E;
  udp_settimeout := udp_settimeout E;
  udp_connect := udp_connect E;
  udp_getsockname := udp_getsockname E;
  udp_close := udp_close E;
  urlopen := urlopen E;
  resp_read := resp_read E;
  resp_close := resp_close E;
  uuid_getnode := fun _ => Ok node;
  create_connection := create_connection E;
  tcp_close := tcp_close E;
  print := print E
|}.

(** The addresses opened along a log, the oldest first. *)
Fixpoint opened (tr : trace) : list string :=
  match tr with
  | [] => []
  | ev :: older =>
      (opened older ++ match ev with EUrlOpen url _ => [url] | _ => [] end)%list
  end.

Definition is_resp_read (ev : event) : bool :=
  match ev with ERespRead => true | _ => false end.

Definition is_resp_close (ev : event) : bool :=
  match ev with ERespClose => true | _ => false end.

(** The calls [get_public_ip] may make with the timeout [timeout]. *)
Definition is_http_call (timeout : pynum) (ev : event) : Prop :=
  (exists url, ev = EUrlOpen url timeout) \/ ev = ERespRead \/ ev = ERespClose.

(** A text of white space only. *)
Definition is_blank (s : string) : bool :=
  forallb isspace (list_ascii_of_string s).

(** A [json.loads] that reads every text as the same object. *)
Definition json_always (obj : pyobj) (s : string) : result pyobj := Ok obj.

(** A world where every endpoint answers the text [body]. *)
Definition env_answering (body : string) : env := {|
  shutil_which := fun _ _ => Ok (Some "/usr/bin/ping");
  platform_system := fun _ => Ok "Linux";
  subprocess_run := fun _ _ _ => Ok (Completed 0 (Some "1 received") (Some ""));
  udp_socket := fun _ => Ok tt;
  udp_settimeout := fun _ _ => Ok tt;
  udp_connect := fun _ _ _ => Ok tt;
  udp_getsockname := fun _ => Ok ("192.168.1.7", 40000);
  udp_close := fun _ => Ok tt;
  urlopen := fun _ _ _ => Ok tt;
  resp_read := fun _ => Ok body;
  resp_close := fun _ => Ok tt;
  uuid_getnode := fun _ => Ok 1250999896491;
  create_connection := fun _ _ _ _ => Ok tt;
  tcp_close := fun _ => Ok tt;
  print := fun _ _ => Ok tt
|}.

(** The world that answers every call as [E] answers it on the empty log:
    a world whose answers do not change with what was called before. *)
Definition static (E : env) : env := {|
  shutil_which := fun _ => shutil_which E [];
  platform_system := fun _ => platform_system E [];
  subprocess_run := fun _ => subprocess_run E [];
  udp_socket := fun _ => udp_socket E [];
  udp_settimeout := fun _ => udp_settimeout E [];
  udp_connect := fun _ => udp_connect E [];
  udp_getsockname := fun _ => udp_getsockname E [];
  udp_close := fun _ => udp_close E [];
  urlopen := fun _ => urlopen E [];
  resp_read := fun _ => resp_read E [];
  resp_close := fun _ => resp_close E [];
  uuid_getnode := fun _ => uuid_getnode E [];
  create_connection := fun _ => create_connection E [];
  tcp_close := fun _ => tcp_close E [];
  print := fun _ => print E []
|}.

(** What [is_port_open(host, port, timeout)] answers in the static world. *)
Definition port_state (E : env) (host : string) (timeout : option pynum)
    (port : Z) : port_answer :=
  match fst (is_port_open (static E) host port
               (Some (default_arg (NFloat 1) timeout)) None []) with
  | Ok a => a
  | Raise _ => ABool false
  end.

(** What [ping(host, timeout, count)] answers in the static world. *)
Definition reachable (E : env) (timeout : option pynum) (count : option Z)
    (host : string) : bool :=
  match fst (ping (static E) host timeout count []) with
  | Ok up => up
  | Raise _ => false
  end.

(** * Properties *)

(** ** Reasoning about computations *)

(** Case analysis on the next scrutinee of the goal. *)
Ltac case_step :=
  match goal with
  | |- context [match ?x with _ => _ end] =>
      lazymatch x with
      | context [match _ with _ => _ end] => fail
      | _ => destruct x eqn:?
      end
  end.

Ltac unfold_monad :=
  unfold with_, try_finally, try_except, bind, call, lift, ret in *.

(** Two answers to the same question are the same answer. *)
Ltac join_eqs :=
  simplify_eq;
  repeat match goal with
         | H1 : ?x = _, H2 : ?x = _ |- _ => rewrite H1 in H2; simplify_eq
         end.

(** ** Numbers and texts *)

Lemma max_not_below (a x : Z) : lt (Py.max (NInt a) (NInt x)) (NInt a) = false.
Proof.
  unfold Py.max, lt. destruct (a <? x) eqn:Hax.
  - apply Z.ltb_lt in Hax. apply Z.ltb_ge. lia.
  - apply Z.ltb_irrefl.
Qed.

Lemma max_float_not_below (a : Z) (g : float) :
  lt (Py.max (NInt a) (NFloat g)) (NInt a) = false.
Proof.
  unfold Py.max. cbn [lt]. destruct (int_lt_float a g) eqn:Hag.
  - cbn [lt]. unfold int_lt_float in Hag. unfold float_lt_int.
    destruct (Prim2SF g) as [s| s | |s m e]; try discriminate.
    + apply Z.ltb_lt in Hag. apply Z.ltb_ge. lia.
    + by destruct s.
    + cbv zeta in *. destruct (0 <=? e).
      * apply Z.ltb_lt in Hag. apply Z.ltb_ge. lia.
      * apply Z.ltb_lt in Hag. apply Z.ltb_ge. lia.
  - cbn [lt]. apply Z.ltb_irrefl.
Qed.

Lemma max_ten_not_below (x : pynum) : lt (Py.max (NInt 10) x) (NInt 10) = false.
Proof. destruct x; [apply max_not_below | apply max_float_not_below]. Qed.

Lemma max_int (a x : Z) : Py.max (NInt a) (NInt x) = NInt (Z.max a x).
Proof.
  unfold Py.max, lt. destruct (a <? x) eqn:Hax.
  - apply Z.ltb_lt in Hax. f_equal. lia.
  - apply Z.ltb_ge in Hax. f_equal. lia.
Qed.

Lemma lstrip_no_leading_space s : starts_with_space (lstrip s) = false.
Proof.
  induction s as [|c s IH]; [reflexivity|].
  cbn [lstrip]. destruct (isspace c) eqn:Hc; [exact IH|].
  cbn [starts_with_space]. exact Hc.
Qed.

Lemma rstrip_no_trailing_space s : ends_with_space (rstrip s) = false.
Proof.
  induction s as [|c s IH]; [reflexivity|].
  cbn [rstrip]. destruct (rstrip s) as [|c' r] eqn:Hr.
  - destruct (isspace c) eqn:Hc; [reflexivity|]. cbn. exact Hc.
  - exact IH.
Qed.

Lemma rstrip_keeps_head s :
  starts_with_space s = false -> starts_with_space (rstrip s) = false.
Proof.
  destruct s as [|c s]; [reflexivity|]. cbn [starts_with_space rstrip].
  intros Hc. destruct (rstrip s); [rewrite Hc|]; exact Hc.
Qed.

Lemma strip_no_outer_space s :
  starts_with_space (strip s) = false /\ ends_with_space (strip s) = false.
Proof.
  unfold strip. split.
  - apply rstrip_keeps_head, lstrip_no_leading_space.
  - apply rstrip_no_trailing_space.
Qed.

(** ** Numerals and the limit on their length *)

Lemma str_int_ok n : within_str_limit n -> str_int n = Ok (numeral n).
Proof.
  unfold within_str_limit, str_int. intros Hn.
  destruct (4300 <? str_digits n) eqn:Hlt; [|reflexivity].
  apply Z.ltb_lt in Hlt. lia.
Qed.

Lemma str_int_cases n :
  (within_str_limit n /\ str_int n = Ok (numeral n))
  \/ (~ within_str_limit n /\ str_int n = Raise str_digits_error).
Proof.
  unfold within_str_limit, str_int.
  destruct (4300 <? str_digits n) eqn:Hlt.
  - right. apply Z.ltb_lt in Hlt. split; [lia | reflexivity].
  - left. apply Z.ltb_ge in Hlt. split; [lia | reflexivity].
Qed.

Lemma str_int_raises n e : str_int n = Raise e -> ~ within_str_limit n.
Proof.
  intros Hn Hin. rewrite (str_int_ok _ Hin) in Hn. discriminate.
Qed.

Lemma of_uint_acc_zeros k acc :
  Z.pos (Pos.of_uint_acc (Nat.iter k Decimal.D0 Decimal.Nil) acc)
  = Z.pos acc * 10 ^ Z.of_nat k.
Proof.
  revert acc. induction k as [|k IH]; intros acc.
  - simpl. lia.
  - change (Pos.of_uint_acc (Nat.iter (Datatypes.S k) Decimal.D0 Decimal.Nil) acc)
      with (Pos.of_uint_acc (Nat.iter k Decimal.D0 Decimal.Nil) (Pos.mul 10 acc)).
    rewrite IH, Nat2Z.inj_succ, Z.pow_succ_r by lia. lia.
Qed.

(** A one followed by [k] zeros writes [10 ** k]. *)
Lemma one_and_zeros_pow k : one_and_zeros k = 10 ^ Z.of_nat k.
Proof.
  unfold one_and_zeros, Z.of_int, Z.of_uint.
  change (Pos.of_uint (Decimal.D1 (Nat.iter k Decimal.D0 Decimal.Nil)))
    with (N.pos (Pos.of_uint_acc (Nat.iter k Decimal.D0 Decimal.Nil) 1)).
  cbn [Z.of_N]. rewrite of_uint_acc_zeros. lia.
Qed.

Lemma length_one_and_zeros k :
  String.length
    (DecimalString.NilZero.string_of_uint
       (Decimal.D1 (Nat.iter k Decimal.D0 Decimal.Nil)))
  = Datatypes.S k.
Proof.
  cbn [NilZero.string_of_uint]. unfold NilEmpty.string_of_uint.
  cbn [String.length]. f_equal.
  induction k as [|k IH]; [reflexivity|].
  cbn [Nat.iter]. cbn. f_equal. exact IH.
Qed.

(** It has [k + 1] digits. *)
Lemma str_digits_one_and_zeros k : str_digits (one_and_zeros k) = Z.of_nat k + 1.
Proof.
  unfold str_digits, numeral.
  rewrite Z.abs_eq by (rewrite one_and_zeros_pow; apply Z.pow_nonneg; lia).
  unfold one_and_zeros. rewrite DecimalZ.to_of.
  cbn [Decimal.norm Decimal.unorm Decimal.nzhead].
  unfold DecimalString.NilZero.string_of_int.
  rewrite length_one_and_zeros. lia.
Qed.

(** [10 ** 4300], the least [int] of 4301 digits, is refused. *)
Lemma str_int_long : str_int (10 ^ 4300) = Raise str_digits_error.
Proof.
  change (10 ^ 4300) with (10 ^ Z.of_nat 4300).
  rewrite <- one_and_zeros_pow. unfold str_int.
  rewrite str_digits_one_and_zeros. reflexivity.
Qed.

Lemma long_port_beyond_limit : ~ within_str_limit (10 ^ 4300).
Proof. eapply str_int_raises, str_int_long. Qed.

(** ** [ping_host] *)

Section PingHost.

Variable E : env.

(** The [try] block in terms of the answers of the outside world. *)
Lemma ping_host_try_eq host count timeout t :
  ping_host_try E host count timeout t =
  match shutil_which E t "ping" with
  | Raise e => (Raise e, EWhich "ping" :: t)
  | Ok None => (Ok (false, "ping utility not found"), EWhich "ping" :: t)
  | Ok (Some _) =>
      match platform_system E (EWhich "ping" :: t) with
      | Raise e => (Raise e, EPlatformSystem :: EWhich "ping" :: t)
      | Ok name =>
          match ping_plan (lower name) host count timeout with
          | Raise e => (Raise e, EPlatformSystem :: EWhich "ping" :: t)
          | Ok (args, limit) =>
              (match subprocess_run E (EPlatformSystem :: EWhich "ping" :: t)
                       args limit with
               | Ok done => Ok (returncode done =? 0, strip (ping_output done))
               | Raise e => Raise e
               end,
               ERun args limit :: EPlatformSystem :: EWhich "ping" :: t)
          end
      end
  end.
Proof.
  unfold ping_host_try, ping_output. unfold_monad.
  destruct (shutil_which E t "ping") as [[p|]|e]; try reflexivity.
  destruct (platform_system E (EWhich "ping" :: t)) as [name|e]; try reflexivity.
  destruct (ping_plan (lower name) host count timeout) as [[args limit]|e];
    try reflexivity.
  destruct (subprocess_run E _ args limit) as [done|e]; reflexivity.
Qed.

(** What a plan that could be made is. *)
Lemma ping_plan_command system host count timeout args limit :
  ping_plan system host count timeout = Ok (args, limit) ->
  ping_command host count args /\
  lt limit (NInt 10) = false /\
  (forall c, timeout = NInt c -> limit = NInt (Z.max 10 (count * c + 5))).
Proof.
  unfold ping_plan, rbind.
  assert (Hlimit : forall total total5,
             mul (NInt count) timeout = Ok total ->
             add total (NInt 5) = Ok total5 ->
             forall c, timeout = NInt c ->
                       Py.max (NInt 10) total5 = NInt (Z.max 10 (count * c + 5))).
  { intros total total5 Hmul Hadd c ->. cbn in Hmul. simplify_eq.
    cbn in Hadd. simplify_eq. apply max_int. }
  repeat case_step; intros Hplan; simplify_eq.
  all: split; [eexists _, _, _; eauto|].
  all: split; [apply max_ten_not_below | eapply Hlimit; eauto].
Qed.

(** The plan for an [int] timeout, when the numbers can be written. *)
Lemma ping_plan_int system host count z :
  within_str_limit count ->
  within_str_limit (if String.eqb system "windows" then z * 1000 else z) ->
  ping_plan system host count (NInt z)
  = Ok (if String.eqb system "windows"
        then ["ping"; "-n"; numeral count; "-w"; numeral (z * 1000); host]
        else ["ping"; "-c"; numeral count; "-W"; numeral z; host],
        NInt (Z.max 10 (count * z + 5))).
Proof.
  intros Hcount Hz. unfold ping_plan, rbind.
  rewrite (str_int_ok _ Hcount).
  destruct (String.eqb system "windows"); cbn [mul arith int_of add];
    rewrite (str_int_ok _ Hz), max_int; reflexivity.
Qed.

(** Everything one call of the [try] block can do. *)
Lemma ping_host_try_cases host count timeout t :
  (exists r, ping_host_try E host count timeout t = (r, EWhich "ping" :: t) /\
             (forall p, shutil_which E t "ping" <> Ok (Some p)) /\
             (r = Ok (false, "ping utility not found") \/ exists e, r = Raise e))
  \/ (exists p e,
        shutil_which E t "ping" = Ok (Some p) /\
        ping_host_try E host count timeout t
        = (Raise e, EPlatformSystem :: EWhich "ping" :: t))
  \/ (exists p args limit,
        shutil_which E t "ping" = Ok (Some p) /\
        ping_host_try E host count timeout t
        = (match subprocess_run E (EPlatformSystem :: EWhich "ping" :: t) args limit with
           | Ok done => Ok (returncode done =? 0, strip (ping_output done))
           | Raise e => Raise e
           end,
           ERun args limit :: EPlatformSystem :: EWhich "ping" :: t) /\
        ping_command host count args /\
        lt limit (NInt 10) = false /\
        (forall c, timeout = NInt c -> limit = NInt (Z.max 10 (count * c + 5)))).
Proof.
  rewrite ping_host_try_eq.
  destruct (shutil_which E t "ping") as [[p|]|e] eqn:Hwhich.
  2: { left. eexists. split; [reflexivity|]. split; [congruence | by left]. }
  2: { left. eexists. split; [reflexivity|]. split; [congruence | right; eauto]. }
  destruct (platform_system E (EWhich "ping" :: t)) as [name|e] eqn:Hname.
  2: { right; left. eauto. }
  destruct (ping_plan (lower name) host count timeout) as [[args limit]|e] eqn:Hplan.
  2: { right; left. eauto. }
  right; right. exists p, args, limit. split; [reflexivity|].
  split; [reflexivity|]. eapply ping_plan_command, Hplan.
Qed.

Lemma ping_host_try_trace host count timeout t r t' :
  ping_host_try E host count timeout t = (r, t') ->
  exists new, t' = (new ++ t)%list /\ Forall (fun ev => is_tcp_connect ev = false) new.
Proof.
  rewrite ping_host_try_eq.
  repeat case_step; intros H; simplify_eq.
  all: first [ by exists [EWhich "ping"]; split; [|repeat constructor]
             | by exists [EPlatformSystem; EWhich "ping"]; split; [|repeat constructor]
             | by eexists [ERun _ _; EPlatformSystem; EWhich "ping"];
                  split; [|repeat constructor] ].
Qed.

(** [ping_host] in terms of its [try] block. *)
Lemma ping_host_eq host count timeout t :
  ping_host E host count timeout t =
  match ping_host_try E host (default_arg 4 count) (default_arg (NInt 2) timeout) t with
  | (Ok r, t1) => (Ok r, t1)
  | (Raise TimeoutExpired, t1) => (Ok (false, "ping command timed out"), t1)
  | (Raise (Exception text), t1) => (Ok (false, text), t1)
  end.
Proof.
  unfold ping_host, try_except.
  destruct (ping_host_try _ _ _ _ t) as [[r|[|text]] t1]; reflexivity.
Qed.

(** [ping] in terms of the [try] block of [ping_host]. *)
Lemma ping_eq host timeout count t :
  ping E host timeout count t =
  match ping_host_try E host (default_arg 1 count) (default_arg (NInt 2) timeout) t with
  | (Ok r, t1) => (Ok (fst r), t1)
  | (Raise _, t1) => (Ok false, t1)
  end.
Proof.
  unfold ping. unfold try_except at 1. unfold bind.
  rewrite ping_host_eq. simpl default_arg.
  destruct (ping_host_try _ _ _ _ t) as [[[b msg]|[|text]] t1]; reflexivity.
Qed.

Lemma ping_ok host timeout count t :
  exists b t', ping E host timeout count t = (Ok b, t').
Proof.
  rewrite ping_eq.
  destruct (ping_host_try _ _ _ _ t) as [[r|e] t1]; eauto.
Qed.

Lemma ping_trace host timeout count t r t' :
  ping E host timeout count t = (r, t') ->
  exists new, t' = (new ++ t)%list /\ Forall (fun ev => is_tcp_connect ev = false) new.
Proof.
  rewrite ping_eq.
  destruct (ping_host_try _ _ _ _ t) as [[r0|e] t1] eqn:Htry; intros H;
    simplify_eq; eapply ping_host_try_trace; eauto.
Qed.

End PingHost.

Section PingHostClaims.

Variable E : env.

(** C7: [ping_host] never raises.  It answers [(b, msg)] where [b] is true
    exactly when the [ping] process was run and exited with code zero.  A
    missing utility gives [(False, "ping utility not found")] and nothing
    is run.  When the utility is found, the platform is known and the
    command line can be built, the process is run, with that command line
    and time limit, and the answer is made of its exit code and output, or
    is [(False, "ping command timed out")] when it times out and
    [(False, str(e))] when running it raises [e].  An exception raised
    before that, by the lookup, by [platform.system()] or while the command
    line is built, is answered in the same way without running the
    process.  For an [int] timeout the command line is
    [ping -n count -w 1000*timeout host] on Windows and
    [ping -c count -W timeout host] elsewhere, when the two numbers have at
    most 4300 digits. *)
Theorem ping_host_never_raises host count timeout t :
  exists b msg t',
    ping_host E host count timeout t = (Ok (b, msg), t') /\
    (b = true <->
     exists args limit t0 done,
       t' = ERun args limit :: t0 /\
       ping_command host (default_arg 4 count) args /\
       subprocess_run E t0 args limit = Ok done /\
       returncode done = 0) /\
    (shutil_which E t "ping" = Ok None ->
     b = false /\ msg = "ping utility not found" /\ t' = EWhich "ping" :: t) /\
    (forall p name args limit,
       shutil_which E t "ping" = Ok (Some p) ->
       platform_system E (EWhich "ping" :: t) = Ok name ->
       ping_plan (lower name) host (default_arg 4 count)
         (default_arg (NInt 2) timeout) = Ok (args, limit) ->
       t' = ERun args limit :: EPlatformSystem :: EWhich "ping" :: t /\
       match subprocess_run E (EPlatformSystem :: EWhich "ping" :: t) args limit with
       | Ok done => b = (returncode done =? 0) /\ msg = strip (ping_output done)
       | Raise TimeoutExpired => b = false /\ msg = "ping command timed out"
       | Raise (Exception text) => b = false /\ msg = text
       end) /\
    (forall e,
       shutil_which E t "ping" = Raise e \/
       (exists p,
          shutil_which E t "ping" = Ok (Some p) /\
          (platform_system E (EWhich "ping" :: t) = Raise e \/
           exists name,
             platform_system E (EWhich "ping" :: t) = Ok name /\
             ping_plan (lower name) host (default_arg 4 count)
               (default_arg (NInt 2) timeout) = Raise e)) ->
       b = false /\
       msg = match e with
             | TimeoutExpired => "ping command timed out"
             | Exception text => text
             end /\
       forall args limit t0, t' <> ERun args limit :: t0) /\
    (forall system z,
       default_arg (NInt 2) timeout = NInt z ->
       within_str_limit (default_arg 4 count) ->
       within_str_limit (if String.eqb system "windows" then z * 1000 else z) ->
       ping_plan system host (default_arg 4 count) (default_arg (NInt 2) timeout)
       = Ok (if String.eqb system "windows"
             then ["ping"; "-n"; numeral (default_arg 4 count); "-w";
                   numeral (z * 1000); host]
             else ["ping"; "-c"; numeral (default_arg 4 count); "-W";
                   numeral z; host],
             NInt (Z.max 10 (default_arg 4 count * z + 5)))) /\
    (forall args limit t0,
       t' = ERun args limit :: t0 ->
       subprocess_run E t0 args limit = Raise TimeoutExpired ->
       b = false /\ msg = "ping command timed out") /\
    (forall t1,
       ping_host_try E host (default_arg 4 count) (default_arg (NInt 2) timeout) t
         = (Raise TimeoutExpired, t1) ->
       b = false /\ msg = "ping command timed out" /\ t' = t1) /\
    (forall text t1,
       ping_host_try E host (default_arg 4 count) (default_arg (NInt 2) timeout) t
         = (Raise (Exception text), t1) ->
       b = false /\ msg = text /\ t' = t1).
Proof.
  set (c := default_arg 4 count). set (tm := default_arg (NInt 2) timeout).
  assert (Hint : forall system z,
             tm = NInt z ->
             within_str_limit c ->
             within_str_limit (if String.eqb system "windows" then z * 1000 else z) ->
             ping_plan system host c tm
             = Ok (if String.eqb system "windows"
                   then ["ping"; "-n"; numeral c; "-w"; numeral (z * 1000); host]
                   else ["ping"; "-c"; numeral c; "-W"; numeral z; host],
                   NInt (Z.max 10 (c * z + 5)))).
  { intros system z -> Hc Hz. by apply ping_plan_int. }
  rewrite ping_host_eq. fold c tm. rewrite ping_host_try_eq.
  destruct (shutil_which E t "ping") as [[p|]|e] eqn:Hwhich.
  - destruct (platform_system E (EWhich "ping" :: t)) as [name|e] eqn:Hname.
    + destruct (ping_plan (lower name) host c tm) as [[args limit]|e] eqn:Hplan.
      * destruct (ping_plan_command _ _ _ _ _ _ Hplan) as (Hcmd & _).
        destruct (subprocess_run E (EPlatformSystem :: EWhich "ping" :: t) args limit)
          as [done|[|text]] eqn:Hrun.
        -- eexists _, _, _. split; [reflexivity|].
           split; [split|].
           { intros Hb. apply Z.eqb_eq in Hb. eexists _, _, _, _. eauto. }
           { intros (args' & limit' & t0 & done' & Heq & _ & Hrun' & Hcode).
             simplify_eq. rewrite Hrun in Hrun'. simplify_eq.
             by apply Z.eqb_eq. }
           split; [discriminate|].
           split; [intros; join_eqs; rewrite Hrun; auto|].
           split; [intros e [?|(p' & ? & [?|(name' & ? & ?)])]; join_eqs|].
           split; [exact Hint|].
           split; [intros; simplify_eq; congruence|].
           split; intros; simplify_eq.
        -- eexists _, _, _. split; [reflexivity|].
           split; [split; [discriminate|]|].
           { intros (args' & limit' & t0 & done' & Heq & _ & Hrun' & Hcode).
             simplify_eq. rewrite Hrun in Hrun'. discriminate. }
           split; [discriminate|].
           split; [intros; join_eqs; rewrite Hrun; auto|].
           split; [intros e [?|(p' & ? & [?|(name' & ? & ?)])]; join_eqs|].
           split; [exact Hint|].
           split; [intros; simplify_eq; auto|].
           split; intros; simplify_eq; auto.
        -- eexists _, _, _. split; [reflexivity|].
           split; [split; [discriminate|]|].
           { intros (args' & limit' & t0 & done' & Heq & _ & Hrun' & Hcode).
             simplify_eq. rewrite Hrun in Hrun'. discriminate. }
           split; [discriminate|].
           split; [intros; join_eqs; rewrite Hrun; auto|].
           split; [intros e [?|(p' & ? & [?|(name' & ? & ?)])]; join_eqs|].
           split; [exact Hint|].
           split; [intros; simplify_eq; congruence|].
           split; intros; simplify_eq; auto.
      * exists false,
          (match e with
           | TimeoutExpired => "ping command timed out"
           | Exception text => text
           end), (EPlatformSystem :: EWhich "ping" :: t).
        split; [by destruct e|].
        split; [split; [discriminate|]|].
        { intros (args' & limit' & t0 & done' & Heq & _). discriminate. }
        split; [discriminate|].
        split; [intros; join_eqs|].
        split; [intros e' [?|(p' & ? & [?|(name' & ? & ?)])]; join_eqs;
                split; [reflexivity|]; split; [reflexivity|]; discriminate|].
        split; [exact Hint|].
        split; [intros; join_eqs|].
        split; intros; destruct e; simplify_eq; auto.
    + exists false,
        (match e with
         | TimeoutExpired => "ping command timed out"
         | Exception text => text
         end), (EPlatformSystem :: EWhich "ping" :: t).
      split; [by destruct e|].
      split; [split; [discriminate|]|].
      { intros (args' & limit' & t0 & done' & Heq & _). discriminate. }
      split; [discriminate|].
      split; [intros; join_eqs|].
      split; [intros e' [?|(p' & ? & [?|(name' & ? & ?)])]; join_eqs;
              split; [reflexivity|]; split; [reflexivity|]; discriminate|].
      split; [exact Hint|].
      split; [intros; join_eqs|].
      split; intros; destruct e; simplify_eq; auto.
  - exists false, "ping utility not found", (EWhich "ping" :: t).
    split; [reflexivity|].
    split; [split; [discriminate|]|].
    { intros (args' & limit' & t0 & done' & Heq & _). discriminate. }
    split; [auto|].
    split; [intros; join_eqs|].
    split; [intros e' [?|(p' & ? & _)]; join_eqs|].
    split; [exact Hint|].
    split; [intros; join_eqs|].
    split; intros; simplify_eq.
  - exists false,
      (match e with
       | TimeoutExpired => "ping command timed out"
       | Exception text => text
       end), (EWhich "ping" :: t).
    split; [by destruct e|].
    split; [split; [discriminate|]|].
    { intros (args' & limit' & t0 & done' & Heq & _). discriminate. }
    split; [discriminate|].
    split; [intros; join_eqs|].
    split; [intros e' [?|(p' & ? & _)]; join_eqs;
            split; [reflexivity|]; split; [reflexivity|]; discriminate|].
    split; [exact Hint|].
    split; [intros; join_eqs|].
    split; intros; destruct e; simplify_eq; auto.
Qed.

(** C6: [ping(host, timeout, count)] is the first component of
    [ping_host(host, count, timeout)], run from the same state and leaving
    the same state; an omitted [count] is 1; an error in the probe gives
    [False], never an exception. *)
Theorem ping_is_fst_of_ping_host host timeout count t :
  exists r t',
    ping_host E host (Some (default_arg 1 count))
      (Some (default_arg (NInt 2) timeout)) t = (Ok r, t') /\
    ping E host timeout count t = (Ok (fst r), t') /\
    ping E host timeout None t = ping E host timeout (Some 1) t /\
    (forall e t1,
       ping_host_try E host (default_arg 1 count) (default_arg (NInt 2) timeout) t
         = (Raise e, t1) ->
       ping E host timeout count t = (Ok false, t1)).
Proof.
  rewrite ping_host_eq, !ping_eq. simpl default_arg.
  destruct (ping_host_try _ _ _ _ t) as [[r|[|text]] t1];
    eexists _, _; (split; [reflexivity|]); (split; [reflexivity|]);
    (split; [reflexivity|]); intros; simplify_eq; reflexivity.
Qed.

End PingHostClaims.

(** ** [is_online] *)

Section IsOnline.

Variable E : env.

Lemma is_online_first_up timeout servers t :
  exists r t',
    first_up E timeout servers t r t' /\
    for_in servers tt
      (fun server (_ : unit) =>
         up <- ping E server (Some timeout) None ;;
         if up then ret (Return (PyBool true)) else ret (Next tt)) t
    = (match r with PyNone => Ok (Next tt) | _ => Ok (Return r) end, t').
Proof.
  revert t. induction servers as [|server rest IH]; intros t.
  - exists PyNone, t. split; [constructor | reflexivity].
  - destruct (ping_ok E server (Some timeout) None t) as (b & t1 & Hping).
    destruct b.
    + exists (PyBool true), t1. split; [by constructor|].
      cbn [for_in]. unfold bind. rewrite Hping. reflexivity.
    + destruct (IH t1) as (r & t2 & Hrel & Hloop).
      exists r, t2. split; [by econstructor|].
      cbn [for_in]. unfold bind. rewrite Hping. exact Hloop.
Qed.

(** C3: [is_online] pings 1.1.1.1, 8.8.8.8 and 9.9.9.9 in this order,
    returns [True] at the first server whose ping succeeds, leaving the
    state that ping left (the later servers are not probed), and returns
    nothing ([None]) when the three pings fail. *)
Theorem is_online_first_success timeout t :
  dns_servers = ["1.1.1.1"; "8.8.8.8"; "9.9.9.9"] /\
  exists r t',
    first_up E (default_arg (NInt 5) timeout) dns_servers t r t' /\
    is_online E timeout t = (Ok r, t') /\
    (r = PyBool true \/ r = PyNone).
Proof.
  split; [reflexivity|].
  destruct (is_online_first_up (default_arg (NInt 5) timeout) dns_servers t)
    as (r & t' & Hrel & Hloop).
  assert (Hr : r = PyBool true \/ r = PyNone).
  { clear Hloop. induction Hrel; auto. }
  exists r, t'. split; [exact Hrel|]. split; [|exact Hr].
  unfold is_online. unfold bind at 1. cbv zeta. rewrite Hloop.
  destruct Hr as [-> | ->]; reflexivity.
Qed.

End IsOnline.

(** ** [is_port_open] *)

Section IsPortOpen.

Variable E : env.

(** Everything [_tuple_is_port_open] can do once the host was pinged: the
    three texts format the port, so each of them may raise what [str_int]
    raises, and the handlers do not catch that for one another. *)
Lemma tuple_is_port_open_cases host port timeout t :
  let T := default_arg (NFloat 1) timeout in
  exists up t1,
    ping E host (Some T) None t = (Ok up, t1) /\
    let t2 := ETcpConnect host port T :: t1 in
    _tuple_is_port_open E host port timeout t =
    if negb up then (Ok (false, "Host unreachable"), t1)
    else
      match create_connection E t1 host port T with
      | Raise _ =>
          (match str_int port with
           | Ok p => Ok (false, p ++ " is closed")
           | Raise e => Raise e
           end, t2)
      | Ok _ =>
          match tcp_close E t2 with
          | Ok _ =>
              (match str_int port with
               | Ok p => Ok (true, p ++ " is open")
               | Raise e => Raise e
               end, ETcpClose :: t2)
          | Raise _ =>
              (match str_int port with
               | Ok p => Ok (false, p ++ " is closed")
               | Raise e => Raise e
               end, ETcpClose :: t2)
          end
      end.
Proof.
  intros T.
  destruct (ping_ok E host (Some T) None t) as (up & t1 & Hping).
  exists up, t1. split; [exact Hping|]. cbv zeta.
  unfold _tuple_is_port_open. fold T. unfold bind at 1. rewrite Hping.
  destruct up; cbn [negb]; [|reflexivity].
  unfold_monad.
  destruct (create_connection E t1 host port T) as [[]|e];
    [destruct (tcp_close E _) as [[]|e]|];
    destruct (str_int port); reflexivity.
Qed.

(** [is_port_open] in terms of [_tuple_is_port_open]. *)
Lemma is_port_open_eq host port timeout returntuple t :
  is_port_open E host port timeout returntuple t =
  match _tuple_is_port_open E host port (Some (default_arg (NFloat 1) timeout)) t with
  | (Ok r, t') =>
      (Ok (if default_arg false returntuple then ATuple r else ABool (fst r)), t')
  | (Raise e, t') => (Raise e, t')
  end.
Proof.
  unfold is_port_open. cbv zeta.
  destruct (default_arg false returntuple); unfold bind, ret;
    destruct (_tuple_is_port_open E host port _ t) as [[r|e] t']; reflexivity.
Qed.

Lemma tuple_is_port_open_ok host port timeout t :
  within_str_limit port ->
  exists r t', _tuple_is_port_open E host port timeout t = (Ok r, t').
Proof.
  intros Hport.
  destruct (tuple_is_port_open_cases host port timeout t)
    as (up & t1 & _ & Hcases).
  cbv zeta in Hcases. rewrite Hcases, (str_int_ok _ Hport).
  destruct up; cbn [negb]; repeat case_step; eauto.
Qed.

Lemma is_port_open_ok host port timeout returntuple t :
  within_str_limit port ->
  exists a t', is_port_open E host port timeout returntuple t = (Ok a, t').
Proof.
  intros Hport. rewrite is_port_open_eq.
  destruct (tuple_is_port_open_ok host port
              (Some (default_arg (NFloat 1) timeout)) t Hport) as (r & t' & ->).
  eauto.
Qed.

(** On a host that answers the ping, a port that cannot be written makes
    [is_port_open] raise. *)
Lemma is_port_open_raises host port timeout returntuple t t1 e :
  ping E host (Some (default_arg (NFloat 1) timeout)) None t = (Ok true, t1) ->
  str_int port = Raise e ->
  exists t', is_port_open E host port timeout returntuple t = (Raise e, t').
Proof.
  intros Hping Hport. rewrite is_port_open_eq.
  destruct (tuple_is_port_open_cases host port
              (Some (default_arg (NFloat 1) timeout)) t)
    as (up & t1' & Hping' & Hcases).
  cbn [default_arg] in Hping', Hcases. rewrite Hping in Hping'. simplify_eq.
  cbv zeta in Hcases. rewrite Hcases, Hport. cbn [negb].
  repeat case_step; simplify_eq; eauto.
Qed.

(** C2: when the ping of the host fails, [is_port_open(host, port,
    returntuple=True)] is [(False, "Host unreachable")]; the state is the
    one the ping left, and no TCP connection was attempted since the call
    began. *)
Theorem is_port_open_host_unreachable host port timeout t t1 :
  ping E host (Some (default_arg (NFloat 1) timeout)) None t = (Ok false, t1) ->
  is_port_open E host port timeout (Some true) t
    = (Ok (ATuple (false, "Host unreachable")), t1) /\
  exists new,
    t1 = (new ++ t)%list /\ Forall (fun ev => is_tcp_connect ev = false) new.
Proof.
  intros Hping. split.
  - unfold is_port_open, _tuple_is_port_open. cbn [default_arg].
    unfold bind. rewrite Hping. reflexivity.
  - eapply ping_trace. exact Hping.
Qed.

(** C10: from any state and for any port, the [bool] form of
    [is_port_open] and its [returntuple=True] form end in the same state
    and agree: either the second returns a pair and the first returns the
    first component of that pair, or both raise the same exception.  They
    raise only when the port cannot be written, on a host that answered the
    ping; for a port of at most 4300 digits both return. *)
Theorem is_port_open_bool_is_fst_of_tuple host port timeout t :
  exists t',
    ((exists r,
        is_port_open E host port timeout (Some true) t = (Ok (ATuple r), t') /\
        is_port_open E host port timeout (Some false) t = (Ok (ABool (fst r)), t') /\
        is_port_open E host port timeout None t = (Ok (ABool (fst r)), t') /\
        _tuple_is_port_open E host port (Some (default_arg (NFloat 1) timeout)) t
        = (Ok r, t'))
     \/
     (exists e t1,
        is_port_open E host port timeout (Some true) t = (Raise e, t') /\
        is_port_open E host port timeout (Some false) t = (Raise e, t') /\
        is_port_open E host port timeout None t = (Raise e, t') /\
        str_int port = Raise e /\
        ping E host (Some (default_arg (NFloat 1) timeout)) None t = (Ok true, t1))) /\
    (within_str_limit port ->
     exists r,
       is_port_open E host port timeout (Some true) t = (Ok (ATuple r), t') /\
       is_port_open E host port timeout None t = (Ok (ABool (fst r)), t')).
Proof.
  rewrite !is_port_open_eq. cbn [default_arg].
  destruct (tuple_is_port_open_cases host port
              (Some (default_arg (NFloat 1) timeout)) t)
    as (up & t1 & Hping & Hcases).
  cbn [default_arg] in Hping, Hcases. cbv zeta in Hcases.
  destruct (_tuple_is_port_open E host port _ t) as [[r|e] t'] eqn:Htuple.
  - exists t'. split; [left; exists r; auto|]. intros _. exists r. auto.
  - exists t'. split.
    + right. exists e, t1. split; [reflexivity|]. split; [reflexivity|].
      split; [reflexivity|].
      destruct up; cbn [negb] in Hcases; [|discriminate].
      split; [|exact Hping].
      revert Hcases. repeat case_step; intros; simplify_eq; reflexivity.
    + intros Hport. exfalso.
      destruct (tuple_is_port_open_ok host port
                  (Some (default_arg (NFloat 1) timeout)) t Hport)
        as (r & t2 & Hr).
      rewrite Hr in Htuple. discriminate.
Qed.

End IsPortOpen.

(** The theorem at work on a host that drops ICMP and serves TCP. *)
Lemma is_port_open_host_unreachable_witness :
  ping env_filtered "10.0.0.9" (Some (default_arg (NFloat 1) None)) None []
  = (Ok false,
     [ERun ["ping"; "-c"; "1"; "-W"; "1"; "10.0.0.9"] (NInt 10);
      EPlatformSystem; EWhich "ping"]) /\
  (is_port_open env_filtered "10.0.0.9" 443 None (Some true) []
   = (Ok (ATuple (false, "Host unreachable")),
      [ERun ["ping"; "-c"; "1"; "-W"; "1"; "10.0.0.9"] (NInt 10);
       EPlatformSystem; EWhich "ping"]) /\
   exists new,
     [ERun ["ping"; "-c"; "1"; "-W"; "1"; "10.0.0.9"] (NInt 10);
      EPlatformSystem; EWhich "ping"] = (new ++ [])%list /\
     Forall (fun ev => is_tcp_connect ev = false) new).
Proof.
  split; [vm_compute; reflexivity|].
  apply (is_port_open_host_unreachable env_filtered "10.0.0.9" 443 None []).
  vm_compute; reflexivity.
Defined.

(** ** Loops over a list *)

Section Loops.

Context {A B S : Type}.

Lemma runs_total_on (P : A -> Prop) (f : A -> M B) :
  (forall x t, P x -> exists b t', f x t = (Ok b, t')) ->
  forall xs t, Forall P xs -> exists bs t', runs f xs t bs t'.
Proof.
  intros Hf xs. induction xs as [|x xs IH]; intros t Hxs.
  - exists [], t. constructor.
  - apply Forall_cons in Hxs as [Hx Hxs].
    destruct (Hf x t Hx) as (b & t1 & Hb).
    destruct (IH t1 Hxs) as (bs & t2 & Hbs).
    exists (b :: bs), t2. econstructor; eauto.
Qed.

Lemma runs_total (f : A -> M B) :
  (forall x t, exists b t', f x t = (Ok b, t')) ->
  forall xs t, exists bs t', runs f xs t bs t'.
Proof.
  intros Hf xs t. apply (runs_total_on (fun _ => True)); [auto|].
  by apply Forall_forall.
Qed.

Lemma runs_length (f : A -> M B) xs t bs t' :
  runs f xs t bs t' -> length bs = length xs.
Proof. induction 1; simpl; congruence. Qed.

(** A loop whose body calls [f] and then updates its variables runs [f]
    over the list and folds the updates. *)
Lemma for_each_runs (f : A -> M B) (g : A -> B -> S -> S)
    (body : A -> S -> M S) xs s t bs t' :
  (forall x s t, body x s t = (b <- f x ;; ret (g x b s)) t) ->
  runs f xs t bs t' ->
  for_each xs s body t
  = (Ok (fold_left (fun s xb => g (fst xb) (snd xb) s) (zip xs bs) s), t').
Proof.
  intros Hbody Hruns. revert s.
  induction Hruns as [t|x xs t b t1 bs t2 Hb _ IH]; intros s.
  - reflexivity.
  - cbn [for_each]. unfold bind at 1. rewrite Hbody.
    unfold bind at 1. rewrite Hb. unfold ret at 1. cbn [zip zip_with fold_left].
    apply IH.
Qed.

(** A loop stops at the first turn that raises. *)
Lemma for_each_raises (body : A -> S -> M S) x xs s t e t' :
  body x s t = (Raise e, t') ->
  for_each (x :: xs) s body t = (Raise e, t').
Proof. intros Hbody. cbn [for_each]. unfold bind. by rewrite Hbody. Qed.

End Loops.

Section FoldInsert.

Context {K V : Type} `{Countable K}.

Lemma fold_store_dom (l : list (K * V)) (m : gmap K V) :
  dom (fold_left store l m) = list_to_set (l.*1) ∪ dom m.
Proof.
  revert m. induction l as [|[k v] l IH]; intros m.
  - cbn. by rewrite (left_id_L empty union).
  - cbn [fold_left fmap list_fmap list_to_set]. rewrite IH.
    unfold store. cbn [fst snd]. rewrite dom_insert_L.
    rewrite (assoc_L union), (comm_L union (list_to_set _) {[k]}).
    reflexivity.
Qed.

Lemma fold_store_absent (l : list (K * V)) (m : gmap K V) k :
  (forall j v, l !! j ≠ Some (k, v)) ->
  fold_left store l m !! k = m !! k.
Proof.
  revert m. induction l as [|[k0 v0] l IH]; intros m Hno; simpl.
  - reflexivity.
  - rewrite IH.
    + unfold store. simpl. apply lookup_insert_ne.
      intros ->. apply (Hno 0%nat v0). reflexivity.
    + intros j v. apply (Hno (Datatypes.S j) v).
Qed.

Lemma fold_store_last (l : list (K * V)) (m : gmap K V) i k v :
  l !! i = Some (k, v) ->
  (forall j v', (i < j)%nat -> l !! j ≠ Some (k, v')) ->
  fold_left store l m !! k = Some v.
Proof.
  revert m i. induction l as [|[k0 v0] l IH]; intros m i Hi Hlast.
  - discriminate.
  - destruct i as [|i]; simpl in *.
    + simplify_eq. rewrite fold_store_absent.
      * unfold store. simpl. apply lookup_insert_eq.
      * intros j v'. apply (Hlast (Datatypes.S j) v'). lia.
    + eapply IH; [exact Hi|].
      intros j v' Hj. apply (Hlast (Datatypes.S j) v'). lia.
Qed.

End FoldInsert.

Lemma zip_lookup_pair {A B : Type} (xs : list A) (ys : list B) i x y :
  zip xs ys !! i = Some (x, y) <-> xs !! i = Some x /\ ys !! i = Some y.
Proof.
  revert ys i. induction xs as [|x0 xs IH]; intros [|y0 ys] [|i]; simpl;
    try (split; [discriminate | intros [? ?]; discriminate]).
  - split; [intros; simplify_eq; auto | intros [? ?]; simplify_eq; auto].
  - apply IH.
Qed.

Lemma zip_fst_same_length {A B : Type} (xs : list A) (ys : list B) :
  length ys = length xs -> (zip xs ys).*1 = xs.
Proof.
  revert ys. induction xs as [|x xs IH]; intros [|y ys] Hlen; simpl in *;
    try discriminate; [reflexivity|].
  f_equal. apply IH. lia.
Qed.


(** ** [ping_list] and [scan_ports_list] *)

Section Maps.

Variable E : env.

(** C8: [ping_list] pings the hosts one after the other and returns a
    mapping whose keys are exactly the hosts of the list; each host is
    mapped to the result of its ping (of its last ping when the list names
    it more than once). *)
Theorem ping_list_maps_each_host hosts timeout count t :
  exists bs m t',
    runs (fun host => ping E host (Some (default_arg (NInt 2) timeout))
                        (Some (default_arg 1 count))) hosts t bs t' /\
    ping_list E hosts timeout count t = (Ok m, t') /\
    dom m = list_to_set hosts /\
    (forall i host b,
       hosts !! i = Some host -> bs !! i = Some b ->
       (forall j, (i < j)%nat -> hosts !! j ≠ Some host) ->
       m !! host = Some b).
Proof.
  destruct (runs_total
              (fun host => ping E host (Some (default_arg (NInt 2) timeout))
                             (Some (default_arg 1 count)))
              (fun host t => ping_ok E host _ _ t) hosts t) as (bs & t' & Hruns).
  exists bs, (fold_left store (zip hosts bs) empty), t'.
  split; [exact Hruns|]. split; [|split].
  - unfold ping_list.
    apply (for_each_runs
             (fun host => ping E host (Some (default_arg (NInt 2) timeout))
                            (Some (default_arg 1 count)))
             (fun host up results => <[host := up]> results)); auto.
  - rewrite fold_store_dom, zip_fst_same_length by (eapply runs_length; eauto).
    rewrite dom_empty_L. apply (right_id_L empty union).
  - intros i host b Hh Hb Hlast.
    eapply fold_store_last.
    + apply zip_lookup_pair. eauto.
    + intros j v' Hj Hz. apply zip_lookup_pair in Hz as [Hz _].
      exact (Hlast j Hj Hz).
Qed.

(** X22: for ports of at most 4300 digits each, [scan_ports_list] checks
    the ports one after the other and returns a mapping whose keys are
    exactly the ports of the list; each port is mapped to what
    [is_port_open(host, port, timeout)] returned for it (the last time,
    when the list names it more than once). *)
Theorem scan_ports_list_maps_each_port host ports timeout t :
  Forall within_str_limit ports ->
  exists answers m t',
    runs (fun port => is_port_open E host port
                        (Some (default_arg (NFloat 1) timeout)) None)
         ports t answers t' /\
    scan_ports_list E host ports timeout t = (Ok m, t') /\
    dom m = list_to_set ports /\
    (forall i port a,
       ports !! i = Some port -> answers !! i = Some a ->
       (forall j, (i < j)%nat -> ports !! j ≠ Some port) ->
       m !! port = Some a).
Proof.
  intros Hports.
  destruct (runs_total_on within_str_limit
              (fun port => is_port_open E host port
                             (Some (default_arg (NFloat 1) timeout)) None)
              (fun port t Hport => is_port_open_ok E host port _ _ t Hport)
              ports t Hports)
    as (answers & t' & Hruns).
  exists answers, (fold_left store (zip ports answers) empty), t'.
  split; [exact Hruns|]. split; [|split].
  - unfold scan_ports_list.
    apply (for_each_runs
             (fun port => is_port_open E host port
                            (Some (default_arg (NFloat 1) timeout)) None)
             (fun port a results => <[port := a]> results)); auto.
  - rewrite fold_store_dom, zip_fst_same_length by (eapply runs_length; eauto).
    rewrite dom_empty_L. apply (right_id_L empty union).
  - intros i port a Hp Ha Hlast.
    eapply fold_store_last.
    + apply zip_lookup_pair. eauto.
    + intros j v' Hj Hz. apply zip_lookup_pair in Hz as [Hz _].
      exact (Hlast j Hj Hz).
Qed.

(** The first port that makes [is_port_open] raise ends the scan. *)
Lemma scan_ports_list_raises host port ports timeout t e t' :
  is_port_open E host port (Some (default_arg (NFloat 1) timeout)) None t
  = (Raise e, t') ->
  scan_ports_list E host (port :: ports) timeout t = (Raise e, t').
Proof.
  intros Hport. unfold scan_ports_list. apply for_each_raises.
  unfold bind. by rewrite Hport.
Qed.

End Maps.

(** The theorem at work on two ports of a host that answers pings. *)
Lemma scan_ports_list_maps_each_port_witness :
  Forall within_str_limit [80; 81] /\
  exists answers m t',
    runs (fun port => is_port_open env_ipv6 "10.0.0.9" port
                        (Some (default_arg (NFloat 1) None)) None)
         [80; 81] [] answers t' /\
    scan_ports_list env_ipv6 "10.0.0.9" [80; 81] None [] = (Ok m, t') /\
    dom m = list_to_set [80; 81] /\
    (forall i port a,
       [80; 81] !! i = Some port -> answers !! i = Some a ->
       (forall j, (i < j)%nat -> [80; 81] !! j ≠ Some port) ->
       m !! port = Some a).
Proof.
  assert (H : Forall within_str_limit [80; 81])
    by (repeat (constructor; [vm_compute; discriminate|]); constructor).
  split; [exact H|].
  exact (scan_ports_list_maps_each_port env_ipv6 "10.0.0.9" [80; 81] None [] H).
Defined.

(** C9 fails on a host that answers pings and a port of 4301 digits:
    [scan_ports_list(host, [10 ** 4300])] returns no mapping, it raises the
    [ValueError] of writing the port, which the handlers of
    [_tuple_is_port_open] raise again. *)
Lemma scan_ports_list_raises_on_long_port :
  fst (ping env_ipv6 "10.0.0.9" (Some (NFloat 1)) None []) = Ok true /\
  fst (scan_ports_list env_ipv6 "10.0.0.9" [10 ^ 4300] None [])
  = Raise str_digits_error.
Proof.
  assert (Hping : ping env_ipv6 "10.0.0.9" (Some (NFloat 1)) None []
                  = (Ok true,
                     [ERun ["ping"; "-c"; "1"; "-W"; "1"; "10.0.0.9"] (NInt 10);
                      EPlatformSystem; EWhich "ping"]))
    by (vm_compute; reflexivity).
  split; [by rewrite Hping|].
  destruct (is_port_open_raises env_ipv6 "10.0.0.9" (10 ^ 4300)
              (Some (NFloat 1)) None [] _ _ Hping str_int_long) as [t' Hopen].
  by rewrite (scan_ports_list_raises env_ipv6 "10.0.0.9" (10 ^ 4300) [] None
                [] _ _ Hopen).
Qed.

(** ** [free_port_scanner] *)

Lemma range_In a b p : In p (range a b) <-> a <= p < b.
Proof.
  unfold range, range_step. simpl.
  rewrite Z.div_1_r, in_map_iff. split.
  - intros (i & <- & Hi). apply in_seq in Hi. lia.
  - intros Hp. exists (Z.to_nat (p - a)). split; [lia|].
    apply in_seq. lia.
Qed.

Lemma range_nth a b i :
  (i < Z.to_nat (b - a))%nat -> range a b !! i = Some (a + Z.of_nat i).
Proof.
  intros Hi. unfold range, range_step. simpl. rewrite Z.div_1_r.
  rewrite list_lookup_fmap.
  replace (b - a + 1 - 1) with (b - a) by lia.
  rewrite lookup_seq_lt by exact Hi. simpl. f_equal. lia.
Qed.

Lemma range_length a b : length (range a b) = Z.to_nat (b - a).
Proof.
  unfold range, range_step. simpl. rewrite Z.div_1_r, length_map, length_seq.
  f_equal. lia.
Qed.

Lemma fold_keep_free (l : list (Z * port_answer)) (acc : list Z) :
  fold_left keep_free l acc
  = (acc ++ List.map fst
              (List.filter (fun pa => negb (answer_truthy (snd pa))) l))%list.
Proof.
  revert acc. induction l as [|[p a] l IH]; intros acc; simpl.
  - by rewrite app_nil_r.
  - rewrite IH. unfold keep_free. simpl.
    destruct (negb (answer_truthy a)); simpl; [|reflexivity].
    by rewrite <- app_assoc.
Qed.

Lemma range_one a : range a (a + 1) = [a].
Proof.
  unfold range, range_step. simpl. rewrite Z.div_1_r.
  replace (a + 1 - a + 1 - 1) with 1 by lia.
  simpl. f_equal. lia.
Qed.

Section Scanner.

Variable E : env.

(** [free_port_scanner] in terms of the sequence of answers of
    [is_port_open]. *)
Lemma free_port_scanner_of_runs host start_port end_port timeout t answers t' :
  runs (fun port => is_port_open E host port
                      (Some (default_arg (NFloat 1) timeout)) None)
       (range start_port (end_port + 1)) t answers t' ->
  free_port_scanner E host start_port end_port timeout None t
  = (Ok (List.map fst
           (List.filter (fun pa => negb (answer_truthy (snd pa)))
                        (zip (range start_port (end_port + 1)) answers))), t').
Proof.
  intros Hruns. unfold free_port_scanner. cbn [default_arg].
  rewrite (for_each_runs
             (fun port => is_port_open E host port
                            (Some (default_arg (NFloat 1) timeout)) None)
             (fun port a open_ports => keep_free open_ports (port, a))
             _ _ [] t answers t'); [| |exact Hruns].
  - change (fun s xb => keep_free s (fst xb, snd xb)) with keep_free.
    rewrite fold_keep_free. reflexivity.
  - intros port open_ports t0. unfold bind, ret.
    destruct (is_port_open E host port _ None t0) as [[a|e] t1]; reflexivity.
Qed.

Lemma scan_ports_list_of_runs host ports timeout t answers t' :
  runs (fun port => is_port_open E host port
                      (Some (default_arg (NFloat 1) timeout)) None)
       ports t answers t' ->
  scan_ports_list E host ports timeout t
  = (Ok (fold_left store (zip ports answers) empty), t').
Proof.
  intros Hruns. unfold scan_ports_list.
  apply (for_each_runs
           (fun port => is_port_open E host port
                          (Some (default_arg (NFloat 1) timeout)) None)
           (fun port a results => <[port := a]> results)); auto.
Qed.

Lemma port_answers_exist host ports timeout t :
  Forall within_str_limit ports ->
  exists answers t',
    runs (fun port => is_port_open E host port
                        (Some (default_arg (NFloat 1) timeout)) None)
         ports t answers t'.
Proof.
  apply (runs_total_on within_str_limit).
  intros port t0 Hport. by apply is_port_open_ok.
Qed.

Lemma range_within start_port end_port :
  (forall port, start_port <= port <= end_port -> within_str_limit port) ->
  Forall within_str_limit (range start_port (end_port + 1)).
Proof.
  intros Hports. apply Forall_forall. intros port Hport.
  apply list_elem_of_In, range_In in Hport. apply Hports. lia.
Qed.

(** X21: for a range of ports of at most 4300 digits each,
    [free_port_scanner(host, start_port, end_port, timeout)] checks the
    ports [start_port], [start_port + 1], ..., [end_port] one after the
    other with [is_port_open] and returns, in this order, exactly those for
    which the answer was false; they all lie in the range, and for 1000 and
    1002 the range is 1000, 1001, 1002. *)
Theorem free_port_scanner_collects_closed host start_port end_port timeout t :
  (forall port, start_port <= port <= end_port -> within_str_limit port) ->
  let ports := range start_port (end_port + 1) in
  exists answers t',
    runs (fun port => is_port_open E host port
                        (Some (default_arg (NFloat 1) timeout)) None)
         ports t answers t' /\
    free_port_scanner E host start_port end_port timeout None t
    = (Ok (List.map fst
             (List.filter (fun pa => negb (answer_truthy (snd pa)))
                          (zip ports answers))), t') /\
    free_port_scanner E host start_port end_port timeout (Some false) t
    = free_port_scanner E host start_port end_port timeout None t /\
    length ports = Z.to_nat (end_port + 1 - start_port) /\
    (forall i, (i < length ports)%nat ->
               ports !! i = Some (start_port + Z.of_nat i)) /\
    (forall p, In p ports <-> start_port <= p <= end_port) /\
    (forall free t1,
       free_port_scanner E host start_port end_port timeout None t = (Ok free, t1) ->
       forall p, In p free -> start_port <= p <= end_port) /\
    range 1000 (1002 + 1) = [1000; 1001; 1002].
Proof.
  intros Hports ports.
  destruct (port_answers_exist host ports timeout t (range_within _ _ Hports))
    as (answers & t' & Hruns).
  pose proof (free_port_scanner_of_runs _ _ _ _ _ _ _ Hruns) as Hscan.
  fold ports in Hscan.
  exists answers, t'. split; [exact Hruns|]. split; [exact Hscan|].
  split; [reflexivity|].
  split; [apply range_length|].
  split; [intros i Hi; apply range_nth; unfold ports in Hi;
          rewrite range_length in Hi; exact Hi|].
  assert (Hin : forall p, In p ports <-> start_port <= p <= end_port).
  { intros p. unfold ports. rewrite range_In. lia. }
  split; [exact Hin|]. split; [|reflexivity].
  intros free t1 Hfree p Hp. rewrite Hscan in Hfree. simplify_eq.
  apply in_map_iff in Hp as ([p' a] & <- & Hp). apply filter_In in Hp as [Hp _].
  apply Hin. apply list_elem_of_In in Hp.
  apply list_elem_of_lookup in Hp as [i Hi].
  apply zip_lookup_pair in Hi as [Hi _].
  apply list_elem_of_In, list_elem_of_lookup. eauto.
Qed.

(** The first port that makes [is_port_open] raise ends the scan. *)
Lemma free_port_scanner_raises host port timeout show_progress t e t' :
  is_port_open E host port (Some (default_arg (NFloat 1) timeout)) None t
  = (Raise e, t') ->
  free_port_scanner E host port port timeout show_progress t = (Raise e, t').
Proof.
  intros Hport. unfold free_port_scanner. rewrite range_one.
  apply for_each_raises. unfold bind. by rewrite Hport.
Qed.

End Scanner.

(** The theorem at work on three ports of a host that answers pings. *)
Lemma free_port_scanner_collects_closed_witness :
  (forall port, 79 <= port <= 81 -> within_str_limit port) /\
  let ports := range 79 (81 + 1) in
  exists answers t',
    runs (fun port => is_port_open env_ipv6 "10.0.0.9" port
                        (Some (default_arg (NFloat 1) None)) None)
         ports [] answers t' /\
    free_port_scanner env_ipv6 "10.0.0.9" 79 81 None None []
    = (Ok (List.map fst
             (List.filter (fun pa => negb (answer_truthy (snd pa)))
                          (zip ports answers))), t') /\
    free_port_scanner env_ipv6 "10.0.0.9" 79 81 None (Some false) []
    = free_port_scanner env_ipv6 "10.0.0.9" 79 81 None None [] /\
    length ports = Z.to_nat (81 + 1 - 79) /\
    (forall i, (i < length ports)%nat -> ports !! i = Some (79 + Z.of_nat i)) /\
    (forall p, In p ports <-> 79 <= p <= 81) /\
    (forall free t1,
       free_port_scanner env_ipv6 "10.0.0.9" 79 81 None None [] = (Ok free, t1) ->
       forall p, In p free -> 79 <= p <= 81) /\
    range 1000 (1002 + 1) = [1000; 1001; 1002].
Proof.
  assert (H : forall port, 79 <= port <= 81 -> within_str_limit port).
  { intros port Hport.
    assert (port = 79 \/ port = 80 \/ port = 81) as [->|[->| ->]] by lia;
      vm_compute; discriminate. }
  split; [exact H|].
  exact (free_port_scanner_collects_closed env_ipv6 "10.0.0.9" 79 81 None [] H).
Defined.

(** C5 fails on a host that answers pings and a range that holds a port of
    4301 digits: [free_port_scanner(host, 10 ** 4300, 10 ** 4300)] returns
    no list, it raises the [ValueError] of writing the port, which the
    handlers of [_tuple_is_port_open] raise again. *)
Lemma free_port_scanner_raises_on_long_port :
  fst (ping env_ipv6 "10.0.0.9" (Some (NFloat 1)) None []) = Ok true /\
  range (10 ^ 4300) (10 ^ 4300 + 1) = [10 ^ 4300] /\
  fst (free_port_scanner env_ipv6 "10.0.0.9" (10 ^ 4300) (10 ^ 4300) None None [])
  = Raise str_digits_error.
Proof.
  assert (Hping : ping env_ipv6 "10.0.0.9" (Some (NFloat 1)) None []
                  = (Ok true,
                     [ERun ["ping"; "-c"; "1"; "-W"; "1"; "10.0.0.9"] (NInt 10);
                      EPlatformSystem; EWhich "ping"]))
    by (vm_compute; reflexivity).
  split; [by rewrite Hping|]. split; [apply range_one|].
  destruct (is_port_open_raises env_ipv6 "10.0.0.9" (10 ^ 4300)
              (Some (NFloat 1)) None [] _ _ Hping str_int_long) as [t' Hopen].
  by rewrite (free_port_scanner_raises env_ipv6 "10.0.0.9" (10 ^ 4300) None None
                [] _ _ Hopen).
Qed.

(** ** [get_mac_address] *)

Lemma hex_byte b :
  0 <= b < 256 ->
  format_02x b = hex2 b /\
  is_lower_hex (hex_digit (b / 16)) = true /\
  is_lower_hex (hex_digit (b mod 16)) = true.
Proof.
  intros Hb.
  assert (Hall : forallb (fun n =>
                   let b := Z.of_nat n in
                   String.eqb (format_02x b) (hex2 b)
                   && is_lower_hex (hex_digit (b / 16))
                   && is_lower_hex (hex_digit (b mod 16)))
                 (seq 0 256) = true) by (vm_compute; reflexivity).
  rewrite forallb_forall in Hall.
  specialize (Hall (Z.to_nat b)). rewrite Z2Nat.id in Hall by lia.
  cbv zeta in Hall.
  assert (Hseq : In (Z.to_nat b) (seq 0 256)) by (apply in_seq; lia).
  apply Hall in Hseq. apply andb_prop in Hseq as [Hseq H3].
  apply andb_prop in Hseq as [H1 H2]. apply String.eqb_eq in H1. auto.
Qed.

Lemma shift_mask_octet mac k :
  0 <= k ->
  Z.land (Z.shiftr mac (8 * k)) 255 = octet mac k.
Proof.
  intros Hk. unfold octet.
  change 255 with (Z.ones 8). rewrite Z.land_ones by lia.
  rewrite Z.shiftr_div_pow2 by lia.
  change 256 with (2 ^ 8). rewrite <- Z.pow_mul_r by lia. reflexivity.
Qed.

Lemma octet_byte mac k : 0 <= octet mac k < 256.
Proof. unfold octet. apply Z.mod_pos_bound. lia. Qed.

Section Mac.

Variable E : env.

(** C4: [get_mac_address] never raises and returns six groups of two
    lowercase hexadecimal digits separated by colons; the groups are the
    bytes 5, 4, 3, 2, 1, 0 of the identifier [uuid.getnode()] gave, the most
    significant of the 48 bits first; when the identifier cannot be read
    the result is ["00:00:00:00:00:00"]. *)
Theorem get_mac_address_format t :
  exists s t',
    get_mac_address E t = (Ok s, t') /\
    is_mac s = true /\
    (forall mac,
       uuid_getnode E t = Ok mac ->
       s = join ":" (List.map (fun k => hex2 (octet mac k)) [5; 4; 3; 2; 1; 0])) /\
    (forall e, uuid_getnode E t = Raise e -> s = "00:00:00:00:00:00").
Proof.
  unfold get_mac_address, try_except, bind, call, ret.
  destruct (uuid_getnode E t) as [mac|e] eqn:Hnode.
  - eexists _, _. split; [reflexivity|].
    assert (Hs : join ":" (List.map
                   (fun ele => format_02x (Z.land (Z.shiftr mac ele) 255))
                   (range_step 40 (-1) (-8)))
                 = join ":" (List.map (fun k => hex2 (octet mac k)) [5; 4; 3; 2; 1; 0])).
    { change (range_step 40 (-1) (-8)) with [8 * 5; 8 * 4; 8 * 3; 8 * 2; 8 * 1; 8 * 0].
      cbn [List.map].
      rewrite !shift_mask_octet by lia.
      repeat match goal with
             | |- context [format_02x (octet mac ?k)] =>
                 rewrite (proj1 (hex_byte _ (octet_byte mac k)))
             end.
      reflexivity. }
    rewrite Hs. split; [|split; [intros ? ?; simplify_eq; reflexivity | discriminate]].
    unfold is_mac, hex2. cbn [List.map join].
    repeat match goal with
           | |- context [hex_digit ?x] =>
               let c := fresh "c" in
               let Hc := fresh "Hc" in
               assert (Hc : is_lower_hex (hex_digit x) = true)
                 by apply hex_byte, octet_byte;
               set (c := hex_digit x) in *; clearbody c
           end.
    simpl.
    repeat match goal with
           | H : is_lower_hex _ = true |- _ => rewrite H; clear H
           end.
    reflexivity.
  - eexists _, _. split; [reflexivity|].
    split; [reflexivity|]. split; [discriminate | reflexivity].
Qed.

End Mac.

(** ** [get_local_ip] and [get_public_ip] *)

Lemma opened_app new old :
  opened (new ++ old)%list = (opened old ++ opened new)%list.
Proof.
  induction new as [|ev new IH]; simpl.
  - by rewrite app_nil_r.
  - rewrite IH. by rewrite app_assoc.
Qed.

Lemma last_take_In {A : Type} (l : list A) k x :
  last (take k l) = Some x -> In x l.
Proof.
  intros Hlast. apply last_Some in Hlast as [l' Hl'].
  assert (Hin : x ∈ take k l).
  { rewrite Hl'. apply elem_of_app. right. by apply list_elem_of_singleton. }
  apply elem_of_take in Hin as (i & Hi & _).
  eapply list_elem_of_In, list_elem_of_lookup_2, Hi.
Qed.

Section Addresses.

Variable E : env.
Variable json_loads : string -> result pyobj.
Variable bytes_decode : string -> result string.

(** Everything [get_local_ip] can do. *)
Lemma get_local_ip_cases t :
  let t1 := EUdpSocket :: t in
  let t2 := ESetTimeout (NFloat 0.5) :: t1 in
  let t3 := EUdpConnect "8.8.8.8" 80 :: t2 in
  let t4 := EGetSockName :: t3 in
  get_local_ip E t =
  match udp_socket E t with
  | Raise _ => (Ok "0.0.0.0", t1)
  | Ok _ =>
      match udp_settimeout E t1 (NFloat 0.5) with
      | Raise _ => (Ok "0.0.0.0", t2)
      | Ok _ =>
          match udp_connect E t2 "8.8.8.8" 80 with
          | Raise _ => (Ok "0.0.0.0", EUdpClose :: t3)
          | Ok _ =>
              match udp_getsockname E t3 with
              | Raise _ => (Ok "0.0.0.0", EUdpClose :: t4)
              | Ok name =>
                  match udp_close E t4 with
                  | Ok _ => (Ok (fst name), EUdpClose :: t4)
                  | Raise _ => (Ok "0.0.0.0", EUdpClose :: t4)
                  end
              end
          end
      end
  end.
Proof.
  cbv zeta. unfold get_local_ip. unfold_monad.
  repeat case_step; reflexivity.
Qed.

(** Everything one turn of the loop can do. *)
Lemma get_public_ip_turn_cases timeout url t :
  let t1 := EUrlOpen url timeout :: t in
  let t3 := ERespClose :: ERespRead :: t1 in
  get_public_ip_turn E json_loads bytes_decode timeout url t =
  match urlopen E t url timeout with
  | Raise _ => (Ok (Next tt), t1)
  | Ok _ =>
      match resp_read E t1 with
      | Raise _ => (Ok (Next tt), t3)
      | Ok raw =>
          match bytes_decode raw with
          | Raise _ => (Ok (Next tt), t3)
          | Ok text =>
              let ip := answer_of json_loads url (strip text) in
              if truthy ip then
                match resp_close E (ERespRead :: t1) with
                | Ok _ => (Ok (Return ip), t3)
                | Raise _ => (Ok (Next tt), t3)
                end
              else (Ok (Next tt), t3)
          end
      end
  end.
Proof.
  cbv zeta. unfold get_public_ip_turn, answer_of. unfold_monad.
  repeat case_step; try reflexivity; congruence.
Qed.

(** A turn of the loop returns what the endpoint yields, or goes on. *)
Lemma get_public_ip_turn_answer timeout url t :
  get_public_ip_turn E json_loads bytes_decode timeout url t =
  match endpoint_answer E json_loads bytes_decode timeout url t with
  | (Some ip, t') => (Ok (Return ip), t')
  | (None, t') => (Ok (Next tt), t')
  end.
Proof.
  rewrite get_public_ip_turn_cases. unfold endpoint_answer. cbv zeta.
  repeat case_step; reflexivity.
Qed.

Lemma endpoint_answer_calls timeout url t o t' :
  endpoint_answer E json_loads bytes_decode timeout url t = (o, t') ->
  exists new,
    t' = (new ++ t)%list /\
    opened new = [url] /\
    length (List.filter is_resp_read new) = length (List.filter is_resp_close new) /\
    Forall (is_http_call timeout) new /\
    (forall ip, o = Some ip ->
       truthy ip = true /\
       exists raw text,
         resp_read E (EUrlOpen url timeout :: t) = Ok raw /\
         bytes_decode raw = Ok text /\
         ip = answer_of json_loads url (strip text)).
Proof.
  unfold endpoint_answer. cbv zeta.
  assert (Hopen : is_http_call timeout (EUrlOpen url timeout))
    by (left; eauto).
  assert (Hread : is_http_call timeout ERespRead) by (right; by left).
  assert (Hclose : is_http_call timeout ERespClose) by (right; by right).
  repeat case_step; intros Heq; simplify_eq.
  all: first
    [ exists [EUrlOpen url timeout]; split; [reflexivity|];
      split; [reflexivity|]; split; [reflexivity|];
      split; [repeat (constructor; [assumption|]); constructor|]
    | exists [ERespClose; ERespRead; EUrlOpen url timeout];
      split; [reflexivity|];
      split; [reflexivity|]; split; [reflexivity|];
      split; [repeat (constructor; [assumption|]); constructor|] ].
  all: intros ip Hip; simplify_eq.
  split; [assumption|]. eauto.
Qed.

(** The loop over the endpoints stops at the first one that yields a
    value. *)
Lemma get_public_ip_loop_calls timeout urls t :
  exists f new k,
    for_in urls tt
      (fun url (_ : unit) =>
         get_public_ip_turn E json_loads bytes_decode timeout url) t
    = (Ok f, (new ++ t)%list) /\
    first_answer E json_loads bytes_decode timeout urls t k
      (match f with Return ip => ip | Next _ => PyStr "0.0.0.0" end)
      (new ++ t)%list /\
    opened new = take k urls /\
    (k <= length urls)%nat /\
    (urls <> [] -> (1 <= k)%nat) /\
    (f = Next tt -> k = length urls) /\
    length (List.filter is_resp_read new) = length (List.filter is_resp_close new) /\
    Forall (is_http_call timeout) new /\
    (forall ip, f = Return ip ->
       truthy ip = true /\
       exists url t0 raw text,
         last (take k urls) = Some url /\
         endpoint_answer E json_loads bytes_decode timeout url t0
         = (Some ip, (new ++ t)%list) /\
         resp_read E (EUrlOpen url timeout :: t0) = Ok raw /\
         bytes_decode raw = Ok text /\
         ip = answer_of json_loads url (strip text)).
Proof.
  revert t. induction urls as [|url urls IH]; intros t.
  - exists (Next tt), [], 0%nat.
    split; [reflexivity|]. split; [constructor|]. repeat split; done.
  - destruct (endpoint_answer E json_loads bytes_decode timeout url t)
      as [o t1] eqn:Hanswer.
    destruct (endpoint_answer_calls _ _ _ _ _ Hanswer)
      as (new1 & -> & Hopened1 & Hbal1 & Hcalls1 & Hfrom1).
    cbn [for_in]. unfold bind. rewrite get_public_ip_turn_answer, Hanswer.
    destruct o as [ip|].
    + exists (Return ip), new1, 1%nat.
      split; [reflexivity|]. split; [by constructor|].
      split; [rewrite Hopened1; reflexivity|].
      split; [simpl; lia|]. split; [lia|]. split; [discriminate|].
      split; [exact Hbal1|]. split; [exact Hcalls1|].
      intros ip' Hip'. injection Hip' as <-.
      destruct (Hfrom1 ip eq_refl) as (Htruthy & raw & text & Hrest).
      split; [exact Htruthy|]. exists url, t, raw, text.
      split; [reflexivity|]. split; [exact Hanswer | exact Hrest].
    + destruct (IH (new1 ++ t)%list)
        as (f & new & k & Hloop & Hfirst & Hopened & Hk & _ & Hnext & Hbal
            & Hcalls & Hfrom).
      exists f, (new ++ new1)%list, (Datatypes.S k).
      rewrite <- app_assoc.
      split; [exact Hloop|].
      split; [econstructor; [exact Hanswer | exact Hfirst]|].
      split; [rewrite opened_app, Hopened1, Hopened; reflexivity|].
      split; [simpl; lia|]. split; [lia|].
      split; [intros Hf; simpl; f_equal; auto|].
      split; [rewrite !List.filter_app, !length_app; lia|].
      split; [by apply Forall_app|].
      intros ip Hip. destruct (Hfrom ip Hip)
        as (Htruthy & url' & t0 & raw & text & Hlast & Hrest).
      split; [exact Htruthy|]. exists url', t0, raw, text.
      split; [|exact Hrest]. cbn [take].
      destruct (take k urls) as [|u us] eqn:Htake; [discriminate|].
      exact Hlast.
Qed.

(** [get_public_ip] in terms of its loop. *)
Lemma get_public_ip_of_loop timeout t f t' :
  for_in endpoints tt
    (fun url (_ : unit) =>
       get_public_ip_turn E json_loads bytes_decode
         (default_arg (NInt 5) timeout) url) t = (Ok f, t') ->
  get_public_ip E json_loads bytes_decode timeout t
  = (Ok (match f with Return ip => ip | Next _ => PyStr "0.0.0.0" end), t').
Proof.
  intros Hloop. unfold get_public_ip, try_except, bind. cbv zeta.
  rewrite Hloop. by destruct f.
Qed.


(** C1, amended: [get_local_ip] and [get_public_ip] never raise.
    [get_local_ip] returns the address the socket reports when its five
    calls (socket, settimeout, connect, getsockname, close) succeed and
    ["0.0.0.0"] otherwise; the result is a dotted quad whenever the address
    the system reports is one.  [get_public_ip] asks the three endpoints in
    order and returns the first non-empty value one of them yields: the
    stripped text of its answer, or the [ip] field of a JSON answer of the
    first endpoint; the value is not checked to be an address.  It returns
    ["0.0.0.0"] when the three endpoints were asked in vain. *)
Theorem ip_lookups_never_raise timeout t :
  let T := default_arg (NInt 5) timeout in
  let t1 := EUdpSocket :: t in
  let t2 := ESetTimeout (NFloat 0.5) :: t1 in
  let t3 := EUdpConnect "8.8.8.8" 80 :: t2 in
  let t4 := EGetSockName :: t3 in
  (exists s t',
     get_local_ip E t = (Ok s, t') /\
     (s = "0.0.0.0" \/
      exists name,
        udp_socket E t = Ok tt /\
        udp_settimeout E t1 (NFloat 0.5) = Ok tt /\
        udp_connect E t2 "8.8.8.8" 80 = Ok tt /\
        udp_getsockname E t3 = Ok name /\
        udp_close E t4 = Ok tt /\
        s = fst name) /\
     (forall name,
        udp_socket E t = Ok tt ->
        udp_settimeout E t1 (NFloat 0.5) = Ok tt ->
        udp_connect E t2 "8.8.8.8" 80 = Ok tt ->
        udp_getsockname E t3 = Ok name ->
        udp_close E t4 = Ok tt ->
        s = fst name) /\
     ((forall name, udp_getsockname E t3 = Ok name -> is_ipv4 (fst name) = true) ->
      is_ipv4 s = true)) /\
  (exists k ip t',
     get_public_ip E json_loads bytes_decode timeout t = (Ok ip, t') /\
     first_answer E json_loads bytes_decode T endpoints t k ip t' /\
     (k <= 3)%nat /\
     truthy ip = true /\
     (ip = PyStr "0.0.0.0" \/
      exists url t0 raw text,
        In url endpoints /\
        resp_read E t0 = Ok raw /\ bytes_decode raw = Ok text /\
        ip = answer_of json_loads url (strip text))).
Proof.
  intros T t1 t2 t3 t4. split.
  - rewrite get_local_ip_cases. cbv zeta. fold t1 t2 t3 t4.
    destruct (udp_socket E t) as [[]|e1] eqn:H1;
      [destruct (udp_settimeout E t1 (NFloat 0.5)) as [[]|e2] eqn:H2;
       [destruct (udp_connect E t2 "8.8.8.8" 80) as [[]|e3] eqn:H3;
        [destruct (udp_getsockname E t3) as [name|e4] eqn:H4;
         [destruct (udp_close E t4) as [[]|e5] eqn:H5|]|]|]|].
    all: eexists _, _; (split; [reflexivity|]).
    all: split;
      [first [by left
             | right; exists name;
               repeat (split; [first [assumption | reflexivity]|]); reflexivity]|].
    all: split; [intros; join_eqs; reflexivity|].
    all: intros Hquad; first [reflexivity | by apply Hquad].
  - destruct (get_public_ip_loop_calls T endpoints t)
      as (f & new & k & Hloop & Hfirst & _ & Hk & _ & _ & _ & _ & Hfrom).
    exists k, (match f with Return ip => ip | Next _ => PyStr "0.0.0.0" end),
      (new ++ t)%list.
    split; [apply get_public_ip_of_loop, Hloop|].
    split; [exact Hfirst|]. split; [exact Hk|].
    destruct f as [[]|ip]; [split; [reflexivity | by left]|].
    destruct (Hfrom ip eq_refl)
      as (Htruthy & url & t0 & raw & text & Hlast & _ & Hread & Hdecode & Hip).
    split; [exact Htruthy|]. right.
    exists url, (EUrlOpen url T :: t0), raw, text.
    split; [|auto].
    eapply last_take_In, Hlast.
Qed.

End Addresses.

(** C1, as stated, fails: on an IPv6 network [get_public_ip] returns the
    IPv6 address the second endpoint answers, which is no dotted quad. *)
Lemma get_public_ip_not_dotted_quad :
  get_public_ip env_ipv6 json_nothing decode_ascii None []
  = (Ok (PyStr "2001:db8::1"),
     [ERespClose; ERespRead; EUrlOpen "https://ifconfig.me/ip" (NInt 5);
      EUrlOpen "https://api.ipify.org?format=json" (NInt 5)]) /\
  is_ipv4 "2001:db8::1" = false /\
  PyStr "2001:db8::1" <> PyStr "0.0.0.0".
Proof. split; [vm_compute; reflexivity | split; [reflexivity | discriminate]]. Qed.

(** ** The functions at work on the sample environments *)

Example ping_host_without_ping :
  ping_host env_offline "10.0.0.9" None None []
  = (Ok (false, "ping utility not found"), [EWhich "ping"]).
Proof. reflexivity. Qed.

Example ping_host_reachable :
  ping_host env_ipv6 "10.0.0.9" None None []
  = (Ok (true, "1 received"),
     [ERun ["ping"; "-c"; "4"; "-W"; "2"; "10.0.0.9"] (NInt 13);
      EPlatformSystem; EWhich "ping"]).
Proof. reflexivity. Qed.

Example ping_host_timed_out :
  ping_host (set_run env_ipv6 (fun _ _ _ => Raise TimeoutExpired))
    "10.0.0.9" (Some 1) (Some (NFloat 0.5)) []
  = (Ok (false, "ping command timed out"),
     [ERun ["ping"; "-c"; "1"; "-W"; "0"; "10.0.0.9"] (NInt 10);
      EPlatformSystem; EWhich "ping"]).
Proof. vm_compute. reflexivity. Qed.

Example ping_host_not_a_number :
  ping_host env_ipv6 "10.0.0.9" None (Some (NFloat nan)) []
  = (Ok (false, "cannot convert float NaN to integer"),
     [EPlatformSystem; EWhich "ping"]).
Proof. vm_compute. reflexivity. Qed.

Example is_online_first_server :
  is_online env_ipv6 None []
  = (Ok (PyBool true),
     [ERun ["ping"; "-c"; "1"; "-W"; "5"; "1.1.1.1"] (NInt 10);
      EPlatformSystem; EWhich "ping"]).
Proof. reflexivity. Qed.

Example is_online_no_server :
  is_online env_offline None []
  = (Ok PyNone, [EWhich "ping"; EWhich "ping"; EWhich "ping"]).
Proof. reflexivity. Qed.

Example get_mac_address_sample :
  get_mac_address env_offline [] = (Ok "01:23:45:67:89:ab", [EGetNode]).
Proof. reflexivity. Qed.

Example get_local_ip_offline :
  get_local_ip env_offline []
  = (Ok "0.0.0.0",
     [EUdpClose; EUdpConnect "8.8.8.8" 80; ESetTimeout (NFloat 0.5); EUdpSocket]).
Proof. reflexivity. Qed.

Example is_port_open_filtered_host :
  create_connection env_filtered [] "10.0.0.9" 443 (NFloat 1) = Ok tt /\
  fst (is_port_open env_filtered "10.0.0.9" 443 None None []) = Ok (ABool false).
Proof. split; vm_compute; reflexivity. Qed.

Example free_port_scanner_sample :
  fst (free_port_scanner env_ipv6 "10.0.0.9" 79 81 None None []) = Ok [79; 81] /\
  fst (free_port_scanner env_ipv6 "10.0.0.9" 1000 1002 None None [])
  = Ok [1000; 1001; 1002].
Proof. split; vm_compute; reflexivity. Qed.

Example scan_ports_list_sample :
  exists m t',
    scan_ports_list env_ipv6 "10.0.0.9" [80; 81] None [] = (Ok m, t') /\
    m !! 80 = Some (ABool true) /\ m !! 81 = Some (ABool false).
Proof. eexists _, _. split; [reflexivity|]. split; vm_compute; reflexivity. Qed.

Example get_local_ip_sample :
  get_local_ip env_ipv6 []
  = (Ok "192.168.1.7",
     [EUdpClose; EGetSockName; EUdpConnect "8.8.8.8" 80;
      ESetTimeout (NFloat 0.5); EUdpSocket]) /\
  is_ipv4 "192.168.1.7" = true.
Proof. split; reflexivity. Qed.

Example is_port_open_long_port :
  fst (is_port_open env_ipv6 "10.0.0.9" 80 None (Some true) [])
  = Ok (ATuple (true, "80 is open")) /\
  fst (is_port_open env_ipv6 "10.0.0.9" 81 None (Some true) [])
  = Ok (ATuple (false, "81 is closed")) /\
  exists t',
    is_port_open env_ipv6 "10.0.0.9" (10 ^ 4300) None (Some true) []
    = (Raise str_digits_error, t').
Proof.
  split; [vm_compute; reflexivity|]. split; [vm_compute; reflexivity|].
  eapply (is_port_open_raises env_ipv6 "10.0.0.9" (10 ^ 4300) None (Some true) []);
    [vm_compute; reflexivity | exact str_int_long].
Qed.

Example ping_host_on_windows :
  ping_plan "windows" "10.0.0.9" 4 (NInt 2)
  = Ok (["ping"; "-n"; "4"; "-w"; "2000"; "10.0.0.9"], NInt 13).
Proof. vm_compute. reflexivity. Qed.

(** * Further properties *)

(** ** More on [ping_host] *)

Section PingHostMore.

Variable E : env.

(** X1: one call of [ping_host] looks the utility up once, then asks for
    the platform at most once, then runs at most one process, in this
    order, and calls nothing else; it stops after the lookup exactly when
    the lookup did not find the utility. *)
Theorem ping_host_calls host count timeout t :
  exists r new,
    ping_host E host count timeout t = (Ok r, (new ++ t)%list) /\
    (new = [EWhich "ping"] \/
     new = [EPlatformSystem; EWhich "ping"] \/
     exists args limit,
       new = [ERun args limit; EPlatformSystem; EWhich "ping"] /\
       ping_command host (default_arg 4 count) args) /\
    (new = [EWhich "ping"] <-> forall p, shutil_which E t "ping" <> Ok (Some p)).
Proof.
  rewrite ping_host_eq.
  destruct (ping_host_try_cases E host (default_arg 4 count)
              (default_arg (NInt 2) timeout) t)
    as [(r & -> & Hno & Hr) | [(p & e & Hw & ->) | (p & args & limit & Hw & -> & Hcmd & _)]].
  - exists (match r with
            | Ok r => r
            | Raise TimeoutExpired => (false, "ping command timed out")
            | Raise (Exception text) => (false, text)
            end), [EWhich "ping"].
    split; [by destruct r as [?|[|?]]|]. split; [by left|]. by split.
  - exists (match e with
            | TimeoutExpired => (false, "ping command timed out")
            | Exception text => (false, text)
            end), [EPlatformSystem; EWhich "ping"].
    split; [by destruct e|]. split; [by right; left|].
    split; [discriminate|]. intros Hno. by destruct (Hno p).
  - exists (match subprocess_run E (EPlatformSystem :: EWhich "ping" :: t)
                    args limit with
            | Ok done => (returncode done =? 0, strip (ping_output done))
            | Raise TimeoutExpired => (false, "ping command timed out")
            | Raise (Exception text) => (false, text)
            end), [ERun args limit; EPlatformSystem; EWhich "ping"].
    split.
    + destruct (subprocess_run E _ args limit) as [done|[|text]]; reflexivity.
    + split; [right; right; eauto|].
      split; [discriminate|]. intros Hno. by destruct (Hno p).
Qed.

(** X2: the time limit given to the [ping] process is never below ten
    seconds, and for an [int] timeout it is the larger of 10 and
    [count * timeout + 5]. *)
Theorem ping_host_time_limit host count timeout t :
  exists r t',
    ping_host E host count timeout t = (Ok r, t') /\
    forall args limit t0,
      t' = ERun args limit :: t0 ->
      lt limit (NInt 10) = false /\
      forall c,
        default_arg (NInt 2) timeout = NInt c ->
        limit = NInt (Z.max 10 (default_arg 4 count * c + 5)).
Proof.
  rewrite ping_host_eq.
  destruct (ping_host_try_cases E host (default_arg 4 count)
              (default_arg (NInt 2) timeout) t)
    as [(r & -> & Hno & Hr)
       | [(p & e & Hw & ->) | (p & args & limit & Hw & -> & Hcmd & Hlim & Hint)]].
  - destruct r as [r|[|text]]; eexists _, _; (split; [reflexivity|]);
      intros; simplify_eq.
  - destruct e as [|text]; eexists _, _; (split; [reflexivity|]);
      intros; simplify_eq.
  - destruct (subprocess_run E _ args limit) as [done|[|text]];
      eexists _, _; (split; [reflexivity|]); intros; simplify_eq; auto.
Qed.

(** X3: when the process ran to its end, the text [ping_host] returns is
    its standard output, followed by a newline and its standard error when
    that is not empty, with no white space left at either end. *)
Theorem ping_host_output_stripped host count timeout t :
  exists b msg t',
    ping_host E host count timeout t = (Ok (b, msg), t') /\
    forall args limit t0 done,
      t' = ERun args limit :: t0 ->
      subprocess_run E t0 args limit = Ok done ->
      msg = strip (ping_output done) /\
      starts_with_space msg = false /\ ends_with_space msg = false.
Proof.
  rewrite ping_host_eq.
  destruct (ping_host_try_cases E host (default_arg 4 count)
              (default_arg (NInt 2) timeout) t)
    as [(r & -> & Hno & Hr)
       | [(p & e & Hw & ->) | (p & args & limit & Hw & -> & _)]].
  - destruct r as [[b msg]|[|text]]; eexists _, _, _; (split; [reflexivity|]);
      intros; simplify_eq.
  - destruct e as [|text]; eexists _, _, _; (split; [reflexivity|]);
      intros; simplify_eq.
  - destruct (subprocess_run E _ args limit) as [done|[|text]] eqn:Hrun;
      eexists _, _, _; (split; [reflexivity|]);
      intros args' limit' t0 done' Heq Hrun'; simplify_eq;
      rewrite Hrun in Hrun'; simplify_eq.
    split; [reflexivity | apply strip_no_outer_space].
Qed.

(** X23: a [count] of more than 4300 digits cannot be written on the
    command line: when the utility is found and the platform is known,
    [ping_host] answers [False] with the text of the [ValueError] and does
    not run the process. *)
Theorem ping_host_long_count host c timeout t p name :
  shutil_which E t "ping" = Ok (Some p) ->
  platform_system E (EWhich "ping" :: t) = Ok name ->
  ~ within_str_limit c ->
  ping_host E host (Some c) timeout t
  = (Ok (false,
         "Exceeds the limit (4300 digits) for integer string conversion; use sys.set_int_max_str_digits() to increase the limit"),
     EPlatformSystem :: EWhich "ping" :: t).
Proof.
  intros Hwhich Hname Hc.
  rewrite ping_host_eq, ping_host_try_eq, Hwhich, Hname. cbn [default_arg].
  assert (Hplan : ping_plan (lower name) host c (default_arg (NInt 2) timeout)
                  = Raise str_digits_error).
  { unfold ping_plan, rbind.
    destruct (str_int_cases c) as [[Hin _]|[_ ->]]; [contradiction|].
    by destruct (String.eqb (lower name) "windows"). }
  rewrite Hplan. reflexivity.
Qed.

End PingHostMore.

(** The theorem at work on a count of 4301 digits. *)
Lemma ping_host_long_count_witness :
  shutil_which env_ipv6 [] "ping" = Ok (Some "/usr/bin/ping") /\
  platform_system env_ipv6 [EWhich "ping"] = Ok "Linux" /\
  ~ within_str_limit (10 ^ 4300) /\
  ping_host env_ipv6 "10.0.0.9" (Some (10 ^ 4300)) None []
  = (Ok (false,
         "Exceeds the limit (4300 digits) for integer string conversion; use sys.set_int_max_str_digits() to increase the limit"),
     [EPlatformSystem; EWhich "ping"]).
Proof.
  split; [reflexivity|]. split; [reflexivity|].
  split; [exact long_port_beyond_limit|].
  exact (ping_host_long_count env_ipv6 "10.0.0.9" (10 ^ 4300) None []
           "/usr/bin/ping" "Linux" eq_refl eq_refl long_port_beyond_limit).
Defined.

(** ** More on [is_port_open] *)

Section IsPortOpenMore.

Variable E : env.

(** X4: [_tuple_is_port_open] answers [(False, "Host unreachable")],
    [(True, "<port> is open")] or [(False, "<port> is closed")], or raises
    the [ValueError] of writing the port.  It raises exactly when the ping
    succeeded and the port has more than 4300 digits.  The port is reported
    open exactly when the ping succeeded, the connection was established,
    closing it succeeded and the port can be written: a connection that is
    established but whose [close] raises is reported closed. *)
Theorem tuple_is_port_open_answers host port timeout t :
  let T := default_arg (NFloat 1) timeout in
  exists up t1 res t',
    ping E host (Some T) None t = (Ok up, t1) /\
    _tuple_is_port_open E host port timeout t = (res, t') /\
    (res = Ok (false, "Host unreachable") \/
     res = Ok (true, numeral port ++ " is open") \/
     res = Ok (false, numeral port ++ " is closed") \/
     res = Raise str_digits_error) /\
    ((exists e, res = Raise e) <-> up = true /\ ~ within_str_limit port) /\
    ((exists msg, res = Ok (true, msg)) <->
     up = true /\
     create_connection E t1 host port T = Ok tt /\
     tcp_close E (ETcpConnect host port T :: t1) = Ok tt /\
     within_str_limit port) /\
    (up = false -> res = Ok (false, "Host unreachable")).
Proof.
  intros T.
  destruct (tuple_is_port_open_cases E host port timeout t)
    as (up & t1 & Hping & Hcases).
  fold T in Hping, Hcases. cbv zeta in Hcases.
  exists up, t1. rewrite Hcases.
  destruct (str_int_cases port) as [[Hin ->]|[Hout ->]];
    (destruct up; cbn [negb];
     [destruct (create_connection E t1 host port T) as [[]|e];
      [destruct (tcp_close E _) as [[]|e]|]|]).
  all: eexists _, _; (split; [exact Hping|]); (split; [reflexivity|]).
  all: (split; [auto|]).
  all: (split; [split; [intros [e' He']; simplify_eq; auto
                       | intros [Hup Hno]; simplify_eq; eauto; contradiction]|]).
  all: (split; [split; [intros [msg Hmsg]; simplify_eq; auto
                       | intros (H1 & H2 & H3 & H4); simplify_eq; eauto;
                         contradiction]|]).
  all: intros Hup; simplify_eq; reflexivity.
Qed.

(** X5: after the ping, [_tuple_is_port_open] attempts at most one TCP
    connection, to the given host and port with the given timeout and only
    when the ping succeeded, and it closes the connection exactly when the
    connection was established; this holds whether it returns or raises. *)
Theorem tuple_is_port_open_calls host port timeout t :
  let T := default_arg (NFloat 1) timeout in
  exists up t1 res t',
    ping E host (Some T) None t = (Ok up, t1) /\
    _tuple_is_port_open E host port timeout t = (res, t') /\
    (t' = t1 /\ up = false \/
     t' = ETcpConnect host port T :: t1 /\ up = true /\
       (exists e, create_connection E t1 host port T = Raise e) \/
     t' = ETcpClose :: ETcpConnect host port T :: t1 /\ up = true /\
       create_connection E t1 host port T = Ok tt).
Proof.
  intros T.
  destruct (tuple_is_port_open_cases E host port timeout t)
    as (up & t1 & Hping & Hcases).
  fold T in Hping, Hcases. cbv zeta in Hcases.
  exists up, t1. rewrite Hcases.
  destruct up; cbn [negb].
  - destruct (create_connection E t1 host port T) as [[]|e].
    + destruct (tcp_close E _) as [[]|e];
        eexists _, _; (split; [exact Hping|]); (split; [reflexivity|]);
        right; right; auto.
    + eexists _, _; (split; [exact Hping|]); (split; [reflexivity|]).
      right; left. eauto.
  - eexists _, _; (split; [exact Hping|]); (split; [reflexivity|]). by left.
Qed.

End IsPortOpenMore.

(** ** More on [get_local_ip] *)

Section LocalIpMore.

Variable E : env.

(** X6: [get_local_ip] closes the socket whenever it was created and
    configured, whatever happens afterwards, once and as its last call; a
    socket that was not created, or whose [settimeout] raised, is not
    closed. *)
Theorem get_local_ip_closes_socket t :
  exists s new,
    get_local_ip E t = (Ok s, (new ++ t)%list) /\
    let configured :=
      udp_socket E t = Ok tt /\
      udp_settimeout E (EUdpSocket :: t) (NFloat 0.5) = Ok tt in
    (configured ->
     exists before, new = EUdpClose :: before /\ ~ In EUdpClose before) /\
    (~ configured -> ~ In EUdpClose new).
Proof.
  rewrite get_local_ip_cases. cbv zeta.
  repeat case_step.
  all: repeat match goal with u : unit |- _ => destruct u end.
  all: first
    [ exists "0.0.0.0", [EUdpSocket]; split; [reflexivity|]
    | eexists _, [ESetTimeout _; EUdpSocket]; split; [reflexivity|]
    | eexists _, [EUdpClose; EUdpConnect _ _; ESetTimeout _; EUdpSocket];
      split; [reflexivity|]
    | eexists _, [EUdpClose; EGetSockName; EUdpConnect _ _; ESetTimeout _;
                  EUdpSocket];
      split; [reflexivity|] ].
  all: cbv zeta.
  all: split;
    [ intros [H1 H2];
      first [ discriminate
            | eexists; split; [reflexivity|]; cbn; intuition discriminate ]
    | intros Hn;
      first [ exfalso; apply Hn; split; reflexivity
            | cbn; intuition discriminate ] ].
Qed.

(** X7: [get_local_ip] returns the address the socket reports when the
    five calls (socket, settimeout, connect, getsockname, close) all
    succeed; a [close] that raises turns even a reported address into
    ["0.0.0.0"]. *)
Theorem get_local_ip_address_or_sentinel t :
  let t1 := EUdpSocket :: t in
  let t2 := ESetTimeout (NFloat 0.5) :: t1 in
  let t3 := EUdpConnect "8.8.8.8" 80 :: t2 in
  let t4 := EGetSockName :: t3 in
  exists s t',
    get_local_ip E t = (Ok s, t') /\
    (forall name,
       udp_socket E t = Ok tt ->
       udp_settimeout E t1 (NFloat 0.5) = Ok tt ->
       udp_connect E t2 "8.8.8.8" 80 = Ok tt ->
       udp_getsockname E t3 = Ok name ->
       udp_close E t4 = Ok tt ->
       s = fst name /\ t' = EUdpClose :: t4) /\
    (forall e t0, t' = EUdpClose :: t0 -> udp_close E t0 = Raise e -> s = "0.0.0.0").
Proof.
  cbv zeta. rewrite get_local_ip_cases. cbv zeta.
  repeat case_step; eexists _, _; (split; [reflexivity|]); split;
    intros; simplify_eq; auto; congruence.
Qed.

End LocalIpMore.

(** ** More on the scanners *)

Lemma range_empty a b : b <= a -> range a b = [].
Proof.
  intros Hab. apply length_zero_iff_nil. rewrite range_length. lia.
Qed.

Lemma range_increasing a b : StronglySorted Z.lt (range a b).
Proof.
  unfold range, range_step. simpl. generalize (Z.to_nat ((b - a + 1 - 1) / 1)).
  intros n. generalize 0%nat. induction n as [|n IH]; intros k; simpl.
  - constructor.
  - constructor; [apply IH|].
    apply Forall_forall. intros p Hp. apply list_elem_of_In in Hp.
    apply in_map_iff in Hp as (i & <- & Hi). apply in_seq in Hi. lia.
Qed.

Lemma kept_In {A B : Type} (P : A * B -> bool) (xs : list A) (ys : list B) x :
  In x (List.map fst (List.filter P (zip xs ys))) -> In x xs.
Proof.
  intros Hx. apply in_map_iff in Hx as ([x' y] & <- & Hx).
  apply filter_In in Hx as [Hx _].
  apply list_elem_of_In, list_elem_of_lookup in Hx as [i Hi].
  apply zip_lookup_pair in Hi as [Hi _].
  apply list_elem_of_In, list_elem_of_lookup. eauto.
Qed.

Lemma kept_sorted {A B : Type} (R : A -> A -> Prop) (P : A * B -> bool)
    (xs : list A) (ys : list B) :
  StronglySorted R xs ->
  StronglySorted R (List.map fst (List.filter P (zip xs ys))).
Proof.
  intros Hxs. revert ys. induction Hxs as [|x xs Hxs IH Hx]; intros ys.
  - constructor.
  - destruct ys as [|y ys]; [constructor|].
    cbn [zip zip_with List.filter]. destruct (P (x, y)); [|apply IH].
    cbn [List.map fst]. constructor; [apply IH|].
    apply Forall_forall. intros x' Hx'. apply list_elem_of_In, kept_In in Hx'.
    rewrite Forall_forall in Hx. apply Hx, list_elem_of_In, Hx'.
Qed.

Lemma kept_length {A B : Type} (P : A * B -> bool) (xs : list A) (ys : list B) :
  (length (List.map fst (List.filter P (zip xs ys))) <= length xs)%nat.
Proof.
  rewrite length_map. etransitivity; [apply filter_length_le|].
  rewrite length_zip_with. lia.
Qed.

Lemma fold_store_from {K V : Type} `{Countable K}
    (l : list (K * V)) (m : gmap K V) k v :
  fold_left store l m !! k = Some v ->
  (exists i, l !! i = Some (k, v)) \/ m !! k = Some v.
Proof.
  revert m. induction l as [|[k0 v0] l IH]; intros m Hk; simpl in Hk.
  - by right.
  - apply IH in Hk as [[i Hi]|Hk].
    + left. by exists (Datatypes.S i).
    + unfold store in Hk. cbn [fst snd] in Hk.
      destruct (decide (k0 = k)) as [->|Hne].
      * rewrite lookup_insert_eq in Hk. simplify_eq. left. by exists 0%nat.
      * rewrite lookup_insert_ne in Hk by done. by right.
Qed.

Lemma runs_lookup {A B : Type} (f : A -> M B) xs t bs t' i x b :
  runs f xs t bs t' -> xs !! i = Some x -> bs !! i = Some b ->
  exists t0 t1, f x t0 = (Ok b, t1).
Proof.
  intros Hruns. revert i. induction Hruns as [|x0 xs t b0 t1 bs t2 Hb _ IH];
    intros [|i] Hx Hb'; simplify_eq/=; eauto.
Qed.

Section ScannersMore.

Variable E : env.

Lemma is_port_open_plain host port timeout t a t' :
  is_port_open E host port timeout None t = (Ok a, t') -> exists b, a = ABool b.
Proof.
  unfold is_port_open. cbn [default_arg]. unfold bind, ret.
  destruct (_tuple_is_port_open E host port _ t) as [[r|e] t1]; intros Ha;
    simplify_eq. eauto.
Qed.

(** X8: when [end_port] is below [start_port] the range is empty:
    [free_port_scanner] returns the empty list and calls nothing, with or
    without [show_progress]. *)
Theorem free_port_scanner_empty_range host start_port end_port timeout
    show_progress t :
  end_port < start_port ->
  free_port_scanner E host start_port end_port timeout show_progress t
  = (Ok [], t).
Proof.
  intros Hlt. unfold free_port_scanner.
  rewrite range_empty by lia. reflexivity.
Qed.

(** X9: for a range of ports of at most 4300 digits each, the list
    [free_port_scanner] returns is strictly increasing, so it names no port
    twice, and it is no longer than the range. *)
Theorem free_port_scanner_increasing host start_port end_port timeout t :
  (forall port, start_port <= port <= end_port -> within_str_limit port) ->
  exists free t',
    free_port_scanner E host start_port end_port timeout None t = (Ok free, t') /\
    StronglySorted Z.lt free /\
    List.NoDup free /\
    (length free <= Z.to_nat (end_port + 1 - start_port))%nat.
Proof.
  intros Hports.
  destruct (port_answers_exist E host (range start_port (end_port + 1)) timeout t
              (range_within _ _ Hports))
    as (answers & t' & Hruns).
  eexists _, _. split; [apply free_port_scanner_of_runs, Hruns|].
  assert (Hsorted : StronglySorted Z.lt
            (List.map fst
               (List.filter (fun pa => negb (answer_truthy (snd pa)))
                            (zip (range start_port (end_port + 1)) answers))))
    by apply kept_sorted, range_increasing.
  split; [exact Hsorted|]. split.
  - clear Hruns. induction Hsorted as [|p l Hl IH Hp]; constructor; [|exact IH].
    intros Hin. rewrite Forall_forall in Hp.
    apply list_elem_of_In, Hp in Hin. lia.
  - rewrite <- range_length. apply kept_length.
Qed.

(** X10: for ports of at most 4300 digits each, every value of the mapping
    [scan_ports_list] returns is a [bool], never a pair, and every key is a
    port of the list. *)
Theorem scan_ports_list_values_are_bool host ports timeout t :
  Forall within_str_limit ports ->
  exists m t',
    scan_ports_list E host ports timeout t = (Ok m, t') /\
    forall port a, m !! port = Some a -> In port ports /\ exists b, a = ABool b.
Proof.
  intros Hports.
  destruct (port_answers_exist E host ports timeout t Hports)
    as (answers & t' & Hruns).
  eexists _, _. split; [apply scan_ports_list_of_runs, Hruns|].
  intros port a Hm. apply fold_store_from in Hm as [[i Hi]|Hm].
  - apply zip_lookup_pair in Hi as [Hp Ha]. split.
    + apply list_elem_of_In, list_elem_of_lookup. eauto.
    + destruct (runs_lookup _ _ _ _ _ _ _ _ Hruns Hp Ha) as (t0 & t1 & Hopen).
      eapply is_port_open_plain. exact Hopen.
  - rewrite lookup_empty in Hm. discriminate.
Qed.

End ScannersMore.

(** The theorems at work: an empty range, then ports of a host that
    answers pings. *)
Lemma free_port_scanner_empty_range_witness :
  3 < 5 /\
  free_port_scanner env_ipv6 "10.0.0.9" 5 3 None (Some true) [] = (Ok [], []).
Proof.
  split; [lia|].
  apply (free_port_scanner_empty_range env_ipv6 "10.0.0.9" 5 3 None (Some true) []).
  lia.
Defined.


Lemma free_port_scanner_increasing_witness :
  (forall port, 79 <= port <= 81 -> within_str_limit port) /\
  exists free t',
    free_port_scanner env_ipv6 "10.0.0.9" 79 81 None None [] = (Ok free, t') /\
    StronglySorted Z.lt free /\
    List.NoDup free /\
    (length free <= Z.to_nat (81 + 1 - 79))%nat.
Proof.
  assert (H : forall port, 79 <= port <= 81 -> within_str_limit port).
  { intros port Hport.
    assert (port = 79 \/ port = 80 \/ port = 81) as [->|[->| ->]] by lia;
      vm_compute; discriminate. }
  split; [exact H|].
  exact (free_port_scanner_increasing env_ipv6 "10.0.0.9" 79 81 None [] H).
Defined.

Lemma scan_ports_list_values_are_bool_witness :
  Forall within_str_limit [22; 80; 443] /\
  exists m t',
    scan_ports_list env_ipv6 "10.0.0.9" [22; 80; 443] None [] = (Ok m, t') /\
    forall port a,
      m !! port = Some a -> In port [22; 80; 443] /\ exists b, a = ABool b.
Proof.
  assert (H : Forall within_str_limit [22; 80; 443])
    by (repeat (constructor; [vm_compute; discriminate|]); constructor).
  split; [exact H|].
  exact (scan_ports_list_values_are_bool env_ipv6 "10.0.0.9" [22; 80; 443]
           None [] H).
Defined.

(** ** More on [get_mac_address] *)

Lemma hex2_decoded b : 0 <= b < 256 -> byte_of_hex2 (hex2 b) = b.
Proof.
  intros Hb.
  assert (Hall : forallb (fun n => byte_of_hex2 (hex2 (Z.of_nat n)) =? Z.of_nat n)
                         (seq 0 256) = true) by (vm_compute; reflexivity).
  rewrite forallb_forall in Hall.
  specialize (Hall (Z.to_nat b)). rewrite Z2Nat.id in Hall by lia.
  apply Z.eqb_eq, Hall, in_seq. lia.
Qed.

Lemma low_bits_of_octets m :
  m mod 2 ^ 48 =
  octet m 0 + 256 * (octet m 1 + 256 * (octet m 2 + 256 * (octet m 3
    + 256 * (octet m 4 + 256 * octet m 5)))).
Proof.
  assert (Hstep : forall q c, 0 < c ->
            q mod (256 * c) = q mod 256 + 256 * ((q / 256) mod c)).
  { intros q c Hc. apply Z.rem_mul_r; lia. }
  assert (Hdiv : forall k, 0 <= k ->
            m / (256 ^ k * 256) = m / 256 ^ k / 256).
  { intros k Hk. rewrite Z.div_div by lia. reflexivity. }
  unfold octet.
  change (2 ^ 48) with (256 * (256 * (256 * (256 * (256 * 256))))).
  change (256 ^ 5) with (256 ^ 4 * 256).
  rewrite (Hdiv 4) by lia. change (256 ^ 4) with (256 ^ 3 * 256).
  rewrite (Hdiv 3) by lia. change (256 ^ 3) with (256 ^ 2 * 256).
  rewrite (Hdiv 2) by lia. change (256 ^ 2) with (256 ^ 1 * 256).
  rewrite (Hdiv 1) by lia. change (256 ^ 1) with 256.
  change (256 ^ 0) with 1. rewrite Z.div_1_r.
  rewrite !Hstep by lia. reflexivity.
Qed.

Lemma get_mac_address_of_node E t mac :
  uuid_getnode E t = Ok mac ->
  get_mac_address E t
  = (Ok (join ":" (List.map (fun k => hex2 (octet mac k)) [5; 4; 3; 2; 1; 0])),
     EGetNode :: t).
Proof.
  intros Hnode. unfold get_mac_address, try_except, bind, call, ret.
  rewrite Hnode. do 2 f_equal.
  change (range_step 40 (-1) (-8)) with [8 * 5; 8 * 4; 8 * 3; 8 * 2; 8 * 1; 8 * 0].
  cbn [List.map].
  rewrite !shift_mask_octet by lia.
  repeat match goal with
         | |- context [format_02x (octet mac ?k)] =>
             rewrite (proj1 (hex_byte _ (octet_byte mac k)))
         end.
  reflexivity.
Qed.

(** X11: the text [get_mac_address] returns depends on the 48 low bits of
    the identifier only and determines them: two identifiers give the same
    text exactly when they agree modulo [2 ^ 48]. *)
Theorem get_mac_address_low_48_bits E1 E2 t1 t2 m1 m2 :
  uuid_getnode E1 t1 = Ok m1 ->
  uuid_getnode E2 t2 = Ok m2 ->
  fst (get_mac_address E1 t1) = fst (get_mac_address E2 t2)
  <-> m1 mod 2 ^ 48 = m2 mod 2 ^ 48.
Proof.
  intros H1 H2.
  rewrite (get_mac_address_of_node _ _ _ H1), (get_mac_address_of_node _ _ _ H2).
  cbn [fst List.map join]. rewrite !low_bits_of_octets.
  pose proof (octet_byte m1 0). pose proof (octet_byte m1 1).
  pose proof (octet_byte m1 2). pose proof (octet_byte m1 3).
  pose proof (octet_byte m1 4). pose proof (octet_byte m1 5).
  pose proof (octet_byte m2 0). pose proof (octet_byte m2 1).
  pose proof (octet_byte m2 2). pose proof (octet_byte m2 3).
  pose proof (octet_byte m2 4). pose proof (octet_byte m2 5).
  split.
  - intros Hs. injection Hs as Hs. unfold hex2 in Hs. cbn in Hs.
    assert (Hb : forall k, hex2 (octet m1 k) = hex2 (octet m2 k) ->
                           octet m1 k = octet m2 k).
    { intros k Hk. rewrite <- (hex2_decoded (octet m1 k)), Hk
        by apply octet_byte. apply hex2_decoded, octet_byte. }
    rewrite (Hb 0), (Hb 1), (Hb 2), (Hb 3), (Hb 4), (Hb 5);
      [reflexivity|unfold hex2; congruence..].
  - intros Hm.
    assert (octet m1 0 = octet m2 0 /\ octet m1 1 = octet m2 1 /\
            octet m1 2 = octet m2 2 /\ octet m1 3 = octet m2 3 /\
            octet m1 4 = octet m2 4 /\ octet m1 5 = octet m2 5) as
      (-> & -> & -> & -> & -> & ->) by lia.
    reflexivity.
Qed.

(** The theorem at work on two identifiers that differ in bit 48 only. *)
Lemma get_mac_address_low_48_bits_witness :
  uuid_getnode env_offline [] = Ok 1250999896491 /\
  uuid_getnode (set_node env_offline (1250999896491 + 2 ^ 48)) []
  = Ok (1250999896491 + 2 ^ 48) /\
  (fst (get_mac_address env_offline [])
   = fst (get_mac_address (set_node env_offline (1250999896491 + 2 ^ 48)) [])
   <-> 1250999896491 mod 2 ^ 48 = (1250999896491 + 2 ^ 48) mod 2 ^ 48).
Proof.
  split; [reflexivity|]. split; [reflexivity|].
  apply (get_mac_address_low_48_bits env_offline
           (set_node env_offline (1250999896491 + 2 ^ 48)) [] []);
    reflexivity.
Defined.


Lemma lstrip_blank s : is_blank s = true -> lstrip s = "".
Proof.
  unfold is_blank. induction s as [|c s IH]; [reflexivity|].
  cbn [list_ascii_of_string forallb lstrip]. intros Hs.
  apply andb_prop in Hs as [-> Hs]. exact (IH Hs).
Qed.

Lemma strip_blank s : is_blank s = true -> strip s = "".
Proof. intros Hs. unfold strip. by rewrite lstrip_blank. Qed.

Section PublicIpMore.

Variable E : env.
Variable json_loads : string -> result pyobj.
Variable bytes_decode : string -> result string.


(** X12: [get_public_ip] opens the endpoints in the order of its list, each
    at most once and the first one always.  It stops at the first endpoint
    that yields a value and opens no further one: the endpoints before it
    yielded nothing, the value it returns is the one that endpoint yielded
    and the state it leaves is the one that endpoint left.  When the three
    endpoints yield nothing it returns ["0.0.0.0"].  It reads and closes
    the answers the same number of times, and calls nothing but [urlopen]
    with its timeout, [read] and the closing of the answer. *)
Theorem get_public_ip_calls timeout t :
  let T := default_arg (NInt 5) timeout in
  exists ip new k,
    get_public_ip E json_loads bytes_decode timeout t = (Ok ip, (new ++ t)%list) /\
    first_answer E json_loads bytes_decode T endpoints t k ip (new ++ t)%list /\
    opened new = take k endpoints /\
    (1 <= k <= 3)%nat /\
    ((exists url t0,
        last (take k endpoints) = Some url /\
        endpoint_answer E json_loads bytes_decode T url t0
        = (Some ip, (new ++ t)%list))
     \/ (k = 3%nat /\ ip = PyStr "0.0.0.0")) /\
    ((k < 3)%nat ->
     exists url t0 raw text,
       last (take k endpoints) = Some url /\
       resp_read E t0 = Ok raw /\ bytes_decode raw = Ok text /\
       ip = answer_of json_loads url (strip text) /\ truthy ip = true) /\
    length (List.filter is_resp_read new) = length (List.filter is_resp_close new) /\
    Forall (is_http_call T) new.
Proof.
  intros T.
  destruct (get_public_ip_loop_calls E json_loads bytes_decode T endpoints t)
    as (f & new & k & Hloop & Hfirst & Hopened & Hk & Hk1 & Hnext & Hbal
        & Hcalls & Hfrom).
  eexists _, new, k. split; [apply get_public_ip_of_loop, Hloop|].
  split; [exact Hfirst|].
  split; [exact Hopened|]. split; [split; [by apply Hk1 | exact Hk]|].
  split; [|split; [|auto]].
  - destruct f as [[]|ip].
    + right. split; [exact (Hnext eq_refl) | reflexivity].
    + left. destruct (Hfrom ip eq_refl)
        as (_ & url & t0 & raw & text & Hlast & Hanswer & _).
      eauto.
  - intros Hlt. destruct f as [[]|ip].
    + specialize (Hnext eq_refl). simpl in Hnext. lia.
    + destruct (Hfrom ip eq_refl)
        as (Htruthy & url & t0 & raw & text & H1 & _ & H2 & H3 & H4).
      exists url, (EUrlOpen url T :: t0), raw, text. auto.
Qed.

End PublicIpMore.

Section PublicIpEdges.

Variable E : env.
Variable json_loads : string -> result pyobj.
Variable bytes_decode : string -> result string.

(** X13: when no endpoint can be opened, [get_public_ip] tries the three
    of them, in order, and returns ["0.0.0.0"]. *)
Theorem get_public_ip_unreachable timeout t :
  let T := default_arg (NInt 5) timeout in
  (forall t0 url, exists e, urlopen E t0 url T = Raise e) ->
  get_public_ip E json_loads bytes_decode timeout t
  = (Ok (PyStr "0.0.0.0"),
     EUrlOpen "https://ipinfo.io/ip" T
     :: EUrlOpen "https://ifconfig.me/ip" T
     :: EUrlOpen "https://api.ipify.org?format=json" T :: t).
Proof.
  intros T Hdown.
  assert (Hturn : forall url t0,
            get_public_ip_turn E json_loads bytes_decode T url t0
            = (Ok (Next tt), EUrlOpen url T :: t0)).
  { intros url t0. rewrite get_public_ip_turn_cases. cbv zeta.
    destruct (Hdown t0 url) as [e ->]. reflexivity. }
  apply (get_public_ip_of_loop E json_loads bytes_decode timeout t (Next tt)).
  fold T. unfold endpoints. cbn [for_in]. unfold bind.
  rewrite !Hturn. reflexivity.
Qed.

(** X14: an answer made of white space only counts as no answer: when
    every body that can be read is blank, and [json.loads] refuses the
    empty text, [get_public_ip] returns ["0.0.0.0"] after opening the three
    endpoints. *)
Theorem get_public_ip_blank_answers timeout t :
  (forall t0 raw text,
     resp_read E t0 = Ok raw -> bytes_decode raw = Ok text ->
     is_blank text = true) ->
  (exists e, json_loads "" = Raise e) ->
  exists new,
    get_public_ip E json_loads bytes_decode timeout t
    = (Ok (PyStr "0.0.0.0"), (new ++ t)%list) /\
    opened new = endpoints.
Proof.
  intros Hblank [e Hjson].
  destruct (get_public_ip_loop_calls E json_loads bytes_decode
              (default_arg (NInt 5) timeout) endpoints t)
    as (f & new & k & Hloop & _ & Hopened & Hk & Hk1 & Hnext & Hbal & Hcalls
        & Hfrom).
  exists new. destruct f as [[]|ip].
  - split; [apply (get_public_ip_of_loop _ _ _ _ _ _ _ Hloop)|].
    rewrite Hopened, (Hnext eq_refl). reflexivity.
  - exfalso.
    destruct (Hfrom ip eq_refl)
      as (Htruthy & url & t0 & raw & text & _ & _ & Hread & Hdecode & ->).
    rewrite (strip_blank text) in Htruthy by eauto.
    unfold answer_of in Htruthy. rewrite Hjson in Htruthy.
    destruct (endswith url "format=json"); discriminate.
Qed.

(** X15: when the first endpoint answers a JSON object whose [ip] field is
    a true value, [get_public_ip] returns that value as it is, whatever its
    type, and contacts no other endpoint. *)
Theorem get_public_ip_json_field timeout t raw text kv ip :
  let T := default_arg (NInt 5) timeout in
  let t1 := EUrlOpen "https://api.ipify.org?format=json" T :: t in
  urlopen E t "https://api.ipify.org?format=json" T = Ok tt ->
  resp_read E t1 = Ok raw ->
  bytes_decode raw = Ok text ->
  json_loads (strip text) = Ok (PyDict kv) ->
  dict_find kv "ip" = Some ip ->
  truthy ip = true ->
  resp_close E (ERespRead :: t1) = Ok tt ->
  get_public_ip E json_loads bytes_decode timeout t
  = (Ok ip, ERespClose :: ERespRead :: t1).
Proof.
  intros T t1 Hopen Hread Hdecode Hjson Hfind Htruthy Hclose.
  apply (get_public_ip_of_loop E json_loads bytes_decode timeout t (Return ip)).
  fold T. unfold endpoints. cbn [for_in]. unfold bind.
  rewrite get_public_ip_turn_cases. cbv zeta. fold T. fold t1.
  rewrite Hopen, Hread, Hdecode.
  assert (Hip : answer_of json_loads "https://api.ipify.org?format=json"
                  (strip text) = ip).
  { unfold answer_of. rewrite Hjson.
    change (endswith "https://api.ipify.org?format=json" "format=json") with true.
    cbn [obj_get]. unfold dict_get. by rewrite Hfind. }
  rewrite Hip, Htruthy, Hclose. reflexivity.
Qed.

(** X16: a JSON object without an [ip] field, or whose [ip] field is a
    false value, counts as no answer although the body is not empty: the
    turn of the JSON endpoint yields nothing and the loop goes on. *)
Theorem get_public_ip_turn_json_without_ip timeout t raw text kv :
  let url := "https://api.ipify.org?format=json" in
  let t1 := EUrlOpen url timeout :: t in
  urlopen E t url timeout = Ok tt ->
  resp_read E t1 = Ok raw ->
  bytes_decode raw = Ok text ->
  json_loads (strip text) = Ok (PyDict kv) ->
  truthy (dict_get kv "ip") = false ->
  get_public_ip_turn E json_loads bytes_decode timeout url t
  = (Ok (Next tt), ERespClose :: ERespRead :: t1).
Proof.
  intros url t1 Hopen Hread Hdecode Hjson Hfalsy.
  rewrite get_public_ip_turn_cases. cbv zeta. fold url. fold t1.
  rewrite Hopen, Hread, Hdecode.
  assert (Hip : answer_of json_loads url (strip text) = dict_get kv "ip").
  { unfold answer_of. rewrite Hjson. reflexivity. }
  rewrite Hip, Hfalsy. reflexivity.
Qed.

End PublicIpEdges.

(** The theorems at work. *)
Lemma get_public_ip_unreachable_witness :
  (forall t0 url, exists e,
      urlopen env_offline t0 url (default_arg (NInt 5) None) = Raise e) /\
  get_public_ip env_offline json_nothing decode_ascii None []
  = (Ok (PyStr "0.0.0.0"),
     [EUrlOpen "https://ipinfo.io/ip" (NInt 5);
      EUrlOpen "https://ifconfig.me/ip" (NInt 5);
      EUrlOpen "https://api.ipify.org?format=json" (NInt 5)]).
Proof.
  assert (H : forall t0 url, exists e,
             urlopen env_offline t0 url (default_arg (NInt 5) None) = Raise e)
    by (intros t0 url; eexists; reflexivity).
  split; [exact H|].
  exact (get_public_ip_unreachable env_offline json_nothing decode_ascii None [] H).
Defined.

Lemma get_public_ip_blank_answers_witness :
  (forall t0 raw text,
     resp_read (env_answering ("  " ++ newline)) t0 = Ok raw ->
     decode_ascii raw = Ok text -> is_blank text = true) /\
  (exists e, json_nothing "" = Raise e) /\
  exists new,
    get_public_ip (env_answering ("  " ++ newline)) json_nothing decode_ascii None []
    = (Ok (PyStr "0.0.0.0"), (new ++ [])%list) /\
    opened new = endpoints.
Proof.
  assert (H1 : forall t0 raw text,
             resp_read (env_answering ("  " ++ newline)) t0 = Ok raw ->
             decode_ascii raw = Ok text -> is_blank text = true).
  { intros t0 raw text Hread Hdecode. injection Hread as <-.
    vm_compute in Hdecode. injection Hdecode as <-. reflexivity. }
  assert (H2 : exists e, json_nothing "" = Raise e) by (eexists; reflexivity).
  split; [exact H1|]. split; [exact H2|].
  exact (get_public_ip_blank_answers (env_answering ("  " ++ newline))
           json_nothing decode_ascii None [] H1 H2).
Defined.

Lemma get_public_ip_json_field_witness :
  get_public_ip (env_answering "{}") (json_always (PyDict [("ip", PyInt 5)]))
    decode_ascii None []
  = (Ok (PyInt 5),
     [ERespClose; ERespRead; EUrlOpen "https://api.ipify.org?format=json" (NInt 5)]).
Proof.
  apply (get_public_ip_json_field (env_answering "{}")
           (json_always (PyDict [("ip", PyInt 5)])) decode_ascii None []
           "{}" "{}" [("ip", PyInt 5)] (PyInt 5)); reflexivity.
Defined.

Lemma get_public_ip_turn_json_without_ip_witness :
  get_public_ip_turn (env_answering "{}") (json_always (PyDict []))
    decode_ascii (NInt 5) "https://api.ipify.org?format=json" []
  = (Ok (Next tt),
     [ERespClose; ERespRead; EUrlOpen "https://api.ipify.org?format=json" (NInt 5)]).
Proof.
  apply (get_public_ip_turn_json_without_ip (env_answering "{}")
           (json_always (PyDict [])) decode_ascii (NInt 5) []
           "{}" "{}" []); reflexivity.
Defined.


(** ** A world that does not change *)

Lemma runs_static {A B : Type} (f : A -> M B) (g : A -> B) xs t bs t' :
  (forall x t0 b t1, f x t0 = (Ok b, t1) -> b = g x) ->
  runs f xs t bs t' -> bs = List.map g xs.
Proof.
  intros Hf Hruns. induction Hruns as [|x xs t b t1 bs t2 Hb _ IH]; [reflexivity|].
  cbn [List.map]. f_equal; [eapply Hf; eauto | exact IH].
Qed.

Lemma fold_store_same {K V : Type} `{Countable K} (g : K -> V) (ks : list K) k :
  fold_left store (zip ks (List.map g ks)) (empty : gmap K V) !! k
  = if decide (k ∈ ks) then Some (g k) else None.
Proof.
  destruct (fold_left store (zip ks (List.map g ks)) empty !! k) as [v|] eqn:Hk.
  - apply fold_store_from in Hk as [[i Hi]|Hk]; [|by rewrite lookup_empty in Hk].
    apply zip_lookup_pair in Hi as [Hi Hv].
    change (List.map g ks) with (g <$> ks) in Hv.
    rewrite list_lookup_fmap, Hi in Hv. simplify_eq/=.
    rewrite decide_True; [reflexivity|].
    apply list_elem_of_lookup. eauto.
  - rewrite decide_False; [reflexivity|]. intros Hin.
    assert (Hdom : k ∈ dom (fold_left store (zip ks (List.map g ks))
                              (empty : gmap K V))).
    { rewrite fold_store_dom, zip_fst_same_length by apply length_map.
      apply elem_of_union_l, elem_of_list_to_set, Hin. }
    apply elem_of_dom in Hdom as [v Hv]. congruence.
Qed.

Section Static.

Variable E : env.

Lemma static_ping_host_try host count timeout t t0 :
  fst (ping_host_try (static E) host count timeout t)
  = fst (ping_host_try (static E) host count timeout t0).
Proof.
  unfold ping_host_try. unfold_monad. simpl.
  repeat case_step; reflexivity.
Qed.

Lemma static_ping host timeout count t t0 :
  fst (ping (static E) host timeout count t)
  = fst (ping (static E) host timeout count t0).
Proof.
  rewrite !ping_eq.
  pose proof (static_ping_host_try host (default_arg 1 count)
                (default_arg (NInt 2) timeout) t t0) as Hsame.
  destruct (ping_host_try (static E) host _ _ t) as [[r|e] t1];
    destruct (ping_host_try (static E) host _ _ t0) as [[r0|e0] t2];
    simpl in *; congruence.
Qed.

Lemma static_is_port_open host port timeout returntuple t t0 :
  fst (is_port_open (static E) host port timeout returntuple t)
  = fst (is_port_open (static E) host port timeout returntuple t0).
Proof.
  assert (Htuple : forall T,
            fst (_tuple_is_port_open (static E) host port T t)
            = fst (_tuple_is_port_open (static E) host port T t0)).
  { intros T.
    destruct (tuple_is_port_open_cases (static E) host port T t)
      as (up & t1 & Hping & ->).
    destruct (tuple_is_port_open_cases (static E) host port T t0)
      as (up0 & t2 & Hping0 & ->).
    pose proof (static_ping host (Some (default_arg (NFloat 1) T)) None t t0)
      as Hsame.
    rewrite Hping, Hping0 in Hsame. simpl in Hsame. injection Hsame as <-.
    cbv zeta. simpl. destruct up; simpl; [|reflexivity].
    repeat case_step; reflexivity. }
  unfold is_port_open, bind. cbv zeta. cbn [default_arg].
  specialize (Htuple (Some (default_arg (NFloat 1) timeout))).
  destruct (default_arg false returntuple); cbv beta;
    destruct (_tuple_is_port_open (static E) host port _ t) as [[r|e] t1];
    destruct (_tuple_is_port_open (static E) host port _ t0) as [[r0|e0] t2];
    simpl in Htuple; simplify_eq; reflexivity.
Qed.

Lemma static_port_answers host timeout ports t answers t' :
  runs (fun port => is_port_open (static E) host port
                      (Some (default_arg (NFloat 1) timeout)) None)
       ports t answers t' ->
  answers = List.map (port_state E host timeout) ports.
Proof.
  apply runs_static. intros port t0 a t1 Ha. unfold port_state.
  rewrite <- (static_is_port_open host port _ None t0 []), Ha. reflexivity.
Qed.

(** X17: in a world that does not change and for a range of ports of at
    most 4300 digits each, [free_port_scanner] returns exactly the ports of
    the range that [scan_ports_list] maps to [False], from whatever states
    the two are called. *)
Theorem free_ports_are_the_closed_ones host start_port end_port timeout t t0 :
  (forall port, start_port <= port <= end_port -> within_str_limit port) ->
  exists free m t1 t2,
    free_port_scanner (static E) host start_port end_port timeout None t
    = (Ok free, t1) /\
    scan_ports_list (static E) host (range start_port (end_port + 1)) timeout t0
    = (Ok m, t2) /\
    forall port, In port free <-> m !! port = Some (ABool false).
Proof.
  intros Hports. apply range_within in Hports.
  set (ports := range start_port (end_port + 1)) in *.
  destruct (port_answers_exist (static E) host ports timeout t Hports)
    as (answers & t1 & Hruns).
  destruct (port_answers_exist (static E) host ports timeout t0 Hports)
    as (answers0 & t2 & Hruns0).
  pose proof (static_port_answers _ _ _ _ _ _ Hruns) as ->.
  pose proof (static_port_answers _ _ _ _ _ _ Hruns0) as ->.
  eexists _, _, t1, t2.
  split; [apply free_port_scanner_of_runs, Hruns|].
  split; [apply scan_ports_list_of_runs, Hruns0|].
  intros port. rewrite fold_store_same. fold ports. split.
  - intros Hin. apply in_map_iff in Hin as ([p a] & <- & Hin).
    apply filter_In in Hin as [Hin Ha].
    apply list_elem_of_In, list_elem_of_lookup in Hin as [i Hi].
    apply zip_lookup_pair in Hi as [Hp Hi].
    change (List.map (port_state E host timeout) ports)
      with (port_state E host timeout <$> ports) in Hi.
    rewrite list_lookup_fmap, Hp in Hi. simplify_eq/=.
    rewrite decide_True by (apply list_elem_of_lookup; eauto).
    assert (Hp' : within_str_limit p).
    { rewrite Forall_forall in Hports. apply Hports, list_elem_of_lookup. eauto. }
    unfold port_state in *.
    destruct (is_port_open_ok (static E) host p
                (Some (default_arg (NFloat 1) timeout)) None [] Hp')
      as (a & t3 & Ha').
    rewrite Ha' in *. simpl in *.
    destruct (is_port_open_plain _ _ _ _ _ _ _ Ha') as [b ->].
    simpl in Ha. by destruct b.
  - destruct (decide (port ∈ ports)) as [Hin|]; [|discriminate].
    intros Hstate. injection Hstate as Hstate.
    apply in_map_iff. exists (port, port_state E host timeout port).
    split; [reflexivity|]. apply filter_In. split; [|by rewrite Hstate].
    apply list_elem_of_lookup in Hin as [i Hi].
    apply list_elem_of_In, list_elem_of_lookup. exists i.
    apply zip_lookup_pair. split; [exact Hi|].
    change (List.map (port_state E host timeout) ports)
      with (port_state E host timeout <$> ports).
    by rewrite list_lookup_fmap, Hi.
Qed.

End Static.

(** The theorem at work on three ports of a host that answers pings. *)
Lemma free_ports_are_the_closed_ones_witness :
  (forall port, 79 <= port <= 81 -> within_str_limit port) /\
  exists free m t1 t2,
    free_port_scanner (static env_ipv6) "10.0.0.9" 79 81 None None []
    = (Ok free, t1) /\
    scan_ports_list (static env_ipv6) "10.0.0.9" (range 79 (81 + 1)) None
      [EGetNode]
    = (Ok m, t2) /\
    forall port, In port free <-> m !! port = Some (ABool false).
Proof.
  assert (H : forall port, 79 <= port <= 81 -> within_str_limit port).
  { intros port Hport.
    assert (port = 79 \/ port = 80 \/ port = 81) as [->|[->| ->]] by lia;
      vm_compute; discriminate. }
  split; [exact H|].
  exact (free_ports_are_the_closed_ones env_ipv6 "10.0.0.9" 79 81 None []
           [EGetNode] H).
Defined.

Section StaticPing.

Variable E : env.

Lemma static_ping_reachable host timeout count t up t' :
  ping (static E) host timeout count t = (Ok up, t') ->
  up = reachable E timeout count host.
Proof.
  intros Hping. unfold reachable.
  rewrite <- (static_ping E host timeout count t []), Hping. reflexivity.
Qed.

(** X18: in a world that does not change, [ping_list] maps every host of
    the list, and no other, to what a ping of that host answers; the order
    of the list and repeated hosts play no role. *)
Theorem ping_list_static hosts timeout count t :
  exists m t',
    ping_list (static E) hosts timeout count t = (Ok m, t') /\
    forall host,
      m !! host =
      if decide (host ∈ hosts)
      then Some (reachable E (Some (default_arg (NInt 2) timeout))
                   (Some (default_arg 1 count)) host)
      else None.
Proof.
  destruct (runs_total
              (fun host => ping (static E) host
                             (Some (default_arg (NInt 2) timeout))
                             (Some (default_arg 1 count)))
              (fun host t => ping_ok (static E) host _ _ t) hosts t)
    as (bs & t' & Hruns).
  assert (Hbs : bs = List.map (reachable E (Some (default_arg (NInt 2) timeout))
                                 (Some (default_arg 1 count))) hosts).
  { eapply runs_static; [|exact Hruns].
    intros host t0 b t1 Hb. eapply static_ping_reachable, Hb. }
  subst bs. eexists _, t'. split.
  - unfold ping_list.
    apply (for_each_runs
             (fun host => ping (static E) host
                            (Some (default_arg (NInt 2) timeout))
                            (Some (default_arg 1 count)))
             (fun host up results => <[host := up]> results)); [auto|exact Hruns].
  - intros host. apply (fold_store_same _ hosts host).
Qed.

Lemma first_up_static timeout servers t r t' :
  first_up (static E) timeout servers t r t' ->
  (r = PyBool true /\
   exists server, In server servers /\
                  reachable E (Some timeout) None server = true)
  \/ (r = PyNone /\
      forall server, In server servers ->
                     reachable E (Some timeout) None server = false).
Proof.
  induction 1 as [t|server rest t t1 Hping|server rest t t1 r t2 Hping _ IH].
  - right. split; [reflexivity|]. intros server [].
  - left. split; [reflexivity|]. exists server. split; [by left|].
    symmetry. eapply static_ping_reachable, Hping.
  - apply static_ping_reachable in Hping.
    destruct IH as [(-> & server' & Hin & Hup)|(-> & Hdown)].
    + left. split; [reflexivity|]. exists server'. split; [by right|exact Hup].
    + right. split; [reflexivity|]. intros server' [<-|Hin]; [by symmetry|].
      by apply Hdown.
Qed.

(** X19: in a world that does not change, [is_online] returns [True]
    exactly when one of the three servers answers a ping, and nothing
    ([None]) when none does. *)
Theorem is_online_static timeout t :
  exists r t',
    is_online (static E) timeout t = (Ok r, t') /\
    (r = PyBool true <->
     exists server,
       In server dns_servers /\
       reachable E (Some (default_arg (NInt 5) timeout)) None server = true) /\
    (r = PyNone <->
     forall server,
       In server dns_servers ->
       reachable E (Some (default_arg (NInt 5) timeout)) None server = false).
Proof.
  destruct (is_online_first_up (static E) (default_arg (NInt 5) timeout)
              dns_servers t) as (r & t' & Hrel & Hloop).
  apply first_up_static in Hrel.
  exists r, t'. split.
  - unfold is_online. unfold bind at 1. cbv zeta. rewrite Hloop.
    destruct Hrel as [(-> & _)|(-> & _)]; reflexivity.
  - destruct Hrel as [(-> & server & Hin & Hup)|(-> & Hdown)].
    + split; [split; eauto|]. split; [discriminate|].
      intros Hdown. rewrite (Hdown server Hin) in Hup. discriminate.
    + split; [|split; auto]. split; [discriminate|].
      intros (server & Hin & Hup). rewrite (Hdown server Hin) in Hup.
      discriminate.
Qed.

End StaticPing.

(** ** A host that does not answer pings *)

Lemma keep_all_false (ports : list Z) :
  List.map fst
    (List.filter (fun pa : Z * port_answer => negb (answer_truthy (snd pa)))
                 (zip ports (List.map (fun _ => ABool false) ports)))
  = ports.
Proof.
  induction ports as [|p ports IH]; [reflexivity|].
  cbn. by rewrite IH.
Qed.

Section Unreachable.

Variable E : env.

Lemma is_port_open_unreachable host port timeout t :
  (forall t0, fst (ping E host (Some (default_arg (NFloat 1) timeout)) None t0)
              = Ok false) ->
  exists new,
    is_port_open E host port (Some (default_arg (NFloat 1) timeout)) None t
    = (Ok (ABool false), (new ++ t)%list) /\
    Forall (fun ev => is_tcp_connect ev = false) new.
Proof.
  intros Hdown. specialize (Hdown t).
  unfold is_port_open, _tuple_is_port_open. cbn [default_arg]. unfold bind.
  destruct (ping E host _ None t) as [[up|e] t1] eqn:Hping; simpl in Hdown;
    simplify_eq.
  destruct (ping_trace _ _ _ _ _ _ _ Hping) as (new & -> & Hnew).
  exists new. split; [reflexivity | exact Hnew].
Qed.

Lemma runs_unreachable host timeout ports t :
  (forall t0, fst (ping E host (Some (default_arg (NFloat 1) timeout)) None t0)
              = Ok false) ->
  exists new,
    runs (fun port => is_port_open E host port
                        (Some (default_arg (NFloat 1) timeout)) None)
         ports t (List.map (fun _ => ABool false) ports) (new ++ t)%list /\
    Forall (fun ev => is_tcp_connect ev = false) new.
Proof.
  intros Hdown. revert t. induction ports as [|port ports IH]; intros t.
  - exists []. split; [constructor | constructor].
  - destruct (is_port_open_unreachable host port timeout t Hdown)
      as (new1 & Hopen & Hnew1).
    destruct (IH (new1 ++ t)%list) as (new2 & Hruns & Hnew2).
    exists (new2 ++ new1)%list. rewrite <- app_assoc.
    split; [econstructor; eauto | by apply Forall_app].
Qed.

(** X20: for a host that answers no ping, [free_port_scanner] reports every
    port of the range as free, in order, without attempting a single TCP
    connection, whatever the ports would answer. *)
Theorem free_port_scanner_unreachable_host host start_port end_port timeout t :
  (forall t0, fst (ping E host (Some (default_arg (NFloat 1) timeout)) None t0)
              = Ok false) ->
  exists new,
    free_port_scanner E host start_port end_port timeout None t
    = (Ok (range start_port (end_port + 1)), (new ++ t)%list) /\
    Forall (fun ev => is_tcp_connect ev = false) new.
Proof.
  intros Hdown.
  destruct (runs_unreachable host timeout (range start_port (end_port + 1)) t Hdown)
    as (new & Hruns & Hnew).
  exists new. split; [|exact Hnew].
  rewrite (free_port_scanner_of_runs _ _ _ _ _ _ _ _ Hruns).
  by rewrite keep_all_false.
Qed.

End Unreachable.

(** The theorem at work on the host that drops ICMP and serves TCP. *)
Lemma free_port_scanner_unreachable_host_witness :
  (forall t0,
     fst (ping env_filtered "10.0.0.9" (Some (default_arg (NFloat 1) None)) None t0)
     = Ok false) /\
  exists new,
    free_port_scanner env_filtered "10.0.0.9" 80 82 None None []
    = (Ok (range 80 (82 + 1)), (new ++ [])%list) /\
    Forall (fun ev => is_tcp_connect ev = false) new.
Proof.
  assert (H : forall t0,
             fst (ping env_filtered "10.0.0.9"
                    (Some (default_arg (NFloat 1) None)) None t0) = Ok false)
    by (intros t0; vm_compute; reflexivity).
  split; [exact H|].
  exact (free_port_scanner_unreachable_host env_filtered "10.0.0.9" 80 82 None [] H).
Defined.
